(** * Checkplot server request handlers

    A shallow embedding of [astrobase/checkplotserver_handlers.py]: the
    Tornado handlers that load checkplot records, merge user edits back into
    them, read and write the project manifest, and dispatch light-curve
    tools.

    Python values are an inductive type, dictionaries are insertion-ordered
    association lists, the file system is a finite map from paths to file
    contents, and a handler is a computation in a state-and-exception monad
    over the storage, the shared project dictionary and the response under
    construction.

    One request is followed from start to end: a task handed to the executor
    runs to completion at the [yield] that awaits it, so interleavings with
    other requests are not part of this model. A file's content is kept as
    the value it encodes (a record, a JSON document) rather than as bytes;
    two files are the same bytes exactly when they hold the same value. *)

From Stdlib Require Import ZArith List String Ascii Bool Lia QArith.
From Stdlib Require Import Sorted Permutation.
From stdpp Require Import base option gmap strings.

Close Scope Q_scope.
Open Scope string_scope.
Open Scope Z_scope.

(** ** Python values *)

Inductive pykey : Type :=
| KStr (s : string)
| KInt (n : Z).

(** A [float] is [PFloat] when finite, [PInf] or [PNan] otherwise.
    [PArray] is a one-dimensional numpy array and [PNpInt] a numpy integer
    scalar, as the pipeline leaves them in a record; a numpy [float64] is a
    Python [float]. *)
#[warnings="-register-all"]
Inductive pyval : Type :=
| PNone
| PBool (b : bool)
| PInt (n : Z)
| PFloat (x : Q)
| PInf (negative : bool)
| PNan
| PStr (s : string)
| PBytes (s : string)
| PList (l : list pyval)
| PArray (l : list pyval)
| PNpInt (n : Z)
| PDict (d : list (pykey * pyval)).

(** A [dict]: keys in insertion order, no key twice. *)
Abbreviation pydict := (list (pykey * pyval)).

#[global] Instance pykey_eq_dec : EqDecision pykey.
Proof. solve_decision. Defined.

Inductive exn : Type :=
| KeyError (k : pykey)
| IndexError
| TypeError
| ValueError
| AttributeError (attr : string)
| RuntimeError (msg : string)
| IOError (path : string)
| UnpicklingError (path : string)
| BinasciiError
| RenderError
| UnicodeDecodeError
| OverflowError.

Inductive result (A : Type) : Type :=
| Ok (a : A)
| Raise (e : exn).
Arguments Ok {A} a.
Arguments Raise {A} e.

(** ** Dictionaries *)

Module Dict.

Fixpoint get (k : pykey) (d : pydict) : option pyval :=
  match d with
  | [] => None
  | (k', v) :: d' => if decide (k = k') then Some v else get k d'
  end.

Definition has (k : pykey) (d : pydict) : bool :=
  match get k d with Some _ => true | None => false end.

(** [d[k] = v]: overwrite in place, or append a new key. *)
Fixpoint set (k : pykey) (v : pyval) (d : pydict) : pydict :=
  match d with
  | [] => [(k, v)]
  | (k', v') :: d' =>
      if decide (k = k') then (k', v) :: d' else (k', v') :: set k v d'
  end.

(** [d.update(u)] *)
Definition update (d u : pydict) : pydict :=
  fold_left (fun acc kv => set (fst kv) (snd kv) acc) u d.

End Dict.

(** ** Operators on values *)

(** [bool(v)] for the values the handlers test. *)
Definition truthy_str (s : string) : bool :=
  match s with EmptyString => false | _ => true end.

Definition truthy_opt (o : option string) : bool :=
  match o with Some s => truthy_str s | None => false end.

Fixpoint is_substring (sub s : string) : bool :=
  String.prefix sub s ||
  match s with
  | EmptyString => false
  | String _ s' => is_substring sub s'
  end.

Definition is_pystr (name : string) (v : pyval) : bool :=
  match v with PStr s => String.eqb name s | _ => false end.

(** [name in container] for a [str] on the left. *)
Definition py_in (name : string) (container : pyval) : result bool :=
  match container with
  | PList l => Ok (existsb (is_pystr name) l)
  | PDict d => Ok (Dict.has (KStr name) d)
  | PStr s => Ok (is_substring name s)
  | _ => Raise TypeError
  end.

(** [l[i]] with Python's negative indices. *)
Definition list_index {A} (l : list A) (i : Z) : option A :=
  let n := Z.of_nat (length l) in
  if (0 <=? i) && (i <? n) then nth_error l (Z.to_nat i)
  else if (- n <=? i) && (i <? 0) then nth_error l (Z.to_nat (n + i))
  else None.

(** [v[k]] *)
Definition py_getitem (v : pyval) (k : pykey) : result pyval :=
  match v, k with
  | PDict d, _ =>
      match Dict.get k d with Some x => Ok x | None => Raise (KeyError k) end
  | PList l, KInt i | PArray l, KInt i =>
      match list_index l i with Some x => Ok x | None => Raise IndexError end
  | PStr s, KInt i =>
      match list_index (list_ascii_of_string s) i with
      | Some c => Ok (PStr (String c EmptyString))
      | None => Raise IndexError
      end
  | PBytes s, KInt i =>
      match list_index (list_ascii_of_string s) i with
      | Some c => Ok (PInt (Z.of_nat (nat_of_ascii c)))
      | None => Raise IndexError
      end
  | PNpInt _, _ => Raise IndexError
  | _, _ => Raise TypeError
  end.

(** [v[k] = x]; the updated container. *)
Definition py_setitem (v : pyval) (k : pykey) (x : pyval) : result pyval :=
  match v, k with
  | PDict d, _ => Ok (PDict (Dict.set k x d))
  | PList l, KInt i =>
      let n := Z.of_nat (length l) in
      if (0 <=? i) && (i <? n) then Ok (PList (<[Z.to_nat i := x]> l))
      else if (- n <=? i) && (i <? 0) then
             Ok (PList (<[Z.to_nat (n + i) := x]> l))
      else Raise IndexError
  | _, _ => Raise TypeError
  end.

(** Whether a byte string is well-formed UTF-8, as the strict decoder of
    [bytes.decode()] requires: no stray continuation byte, no overlong form,
    no surrogate, nothing above U+10FFFF. *)
Definition byte_in (lo hi : Z) (c : ascii) : bool :=
  let n := Z.of_nat (nat_of_ascii c) in (lo <=? n) && (n <=? hi).

Fixpoint utf8_valid (l : list ascii) : bool :=
  match l with
  | [] => true
  | b0 :: r =>
      if byte_in 0 127 b0 then utf8_valid r
      else
        match r with
        | [] => false
        | b1 :: r1 =>
            if byte_in 194 223 b0 then byte_in 128 191 b1 && utf8_valid r1
            else
              match r1 with
              | [] => false
              | b2 :: r2 =>
                  if byte_in 224 239 b0 then
                    (if byte_in 224 224 b0 then byte_in 160 191 b1
                     else if byte_in 237 237 b0 then byte_in 128 159 b1
                     else byte_in 128 191 b1)
                    && byte_in 128 191 b2 && utf8_valid r2
                  else
                    match r2 with
                    | [] => false
                    | b3 :: r3 =>
                        byte_in 240 244 b0
                        && (if byte_in 240 240 b0 then byte_in 144 191 b1
                            else if byte_in 244 244 b0
                                 then byte_in 128 143 b1
                                 else byte_in 128 191 b1)
                        && byte_in 128 191 b2 && byte_in 128 191 b3
                        && utf8_valid r3
                    end
              end
        end
  end.

(** [if isinstance(v, bytes): v = v.decode()]: a [str] is kept as its
    UTF-8 bytes, so decoding keeps the bytes when they are well-formed and
    raises otherwise. *)
Definition decode_if_bytes (v : pyval) : result pyval :=
  match v with
  | PBytes s =>
      if utf8_valid (list_ascii_of_string s) then Ok (PStr s)
      else Raise UnicodeDecodeError
  | _ => Ok v
  end.

(** [v.size]: of a numpy array, or of a numpy scalar. *)
Definition py_size (v : pyval) : result pyval :=
  match v with
  | PArray l => Ok (PInt (Z.of_nat (length l)))
  | PNpInt _ => Ok (PInt 1)
  | _ => Raise (AttributeError "size")
  end.

(** ** Paths ([os.path], POSIX flavour) and [str.replace] *)

Definition slash : ascii := "/"%char.

Definition is_slash (c : ascii) : bool := Ascii.eqb c slash.

Fixpoint drop_while {A} (p : A -> bool) (l : list A) : list A :=
  match l with
  | [] => []
  | x :: l' => if p x then drop_while p l' else l
  end.

(** [os.path.dirname]: everything up to the last slash, trailing slashes
    stripped unless the head is only slashes. *)
Definition os_path_dirname (p : string) : string :=
  let rhead := drop_while (fun c => negb (is_slash c))
                          (rev (list_ascii_of_string p)) in
  if forallb is_slash rhead then string_of_list_ascii (rev rhead)
  else string_of_list_ascii (rev (drop_while is_slash rhead)).

Definition ends_with_slash (a : string) : bool :=
  match rev (list_ascii_of_string a) with
  | c :: _ => is_slash c
  | [] => false
  end.

(** [os.path.join(a, b)] *)
Definition os_path_join (a b : string) : string :=
  if String.prefix "/" b then b
  else if negb (truthy_str a) || ends_with_slash a then a +:+ b
  else a +:+ "/" +:+ b.

(** [s.replace(old, new)]; [skip] counts the characters of a match still to
    be consumed. *)
Fixpoint replace_from (old new : string) (skip : nat) (s : string) : string :=
  match s with
  | EmptyString => EmptyString
  | String c s' =>
      match skip with
      | S k => replace_from old new k s'
      | O =>
          if String.prefix old s
          then new +:+ replace_from old new (Nat.pred (String.length old)) s'
          else String c (replace_from old new O s')
      end
  end.

Definition str_replace (old new s : string) : string :=
  replace_from old new O s.

(** ** Collaborators outside this module

    Library functions the handlers call, and the parameters of the record
    codec and the image renderer of [astrobase.checkplot]. *)

(** What [float] makes of a text: a finite value, an infinity or a NaN. *)
Inductive pyfloat : Type :=
| Finite (x : Q)
| Infinite (negative : bool)
| NotANumber.

Inductive render_outcome : Type :=
| RenderBlob (bytes : string)   (* the image was produced *)
| RenderNothing                 (* the renderer gave up and returned None *)
| RenderRaises.                 (* the renderer raised *)

Record externals : Type := {
  (** [base64.b64decode] followed by the conversion to text; [None] when
      either step raises. *)
  b64decode : string -> option string;
  (** [tornado.escape.xhtml_escape] *)
  xhtml_escape : string -> string;
  (** [json.loads]; [None] when it raises [ValueError]. *)
  json_loads : string -> option pyval;
  (** [os.path.abspath] *)
  os_path_abspath : string -> string;
  (** [time.time()] *)
  time_time : Q;
  (** whether the record codec can serialise a record *)
  encode_ok : pydict -> bool;
  (** the image renderer applied to a record *)
  render : pydict -> render_outcome;
  (** [float(text)] for a [str] or [bytes]; [None] when the text is not a
      number and [float] raises [ValueError]. *)
  float_of_text : string -> option pyfloat;
  (** [float(n)] for an integer: the nearest double, or [None] when the
      integer is too large and [float] raises [OverflowError]. *)
  float_of_int : Z -> option Q;
  (** whether the installed NumPy still converts an array of one element
      to a Python scalar (deprecated since NumPy 1.25); an array of any
      other size never converts. *)
  numpy_converts_size1 : bool;
  (** what [xhtml_escape(None)] raises: a [TypeError] from the regular
      expression in older tornado releases, an [AttributeError] since
      tornado 6.4. *)
  xhtml_escape_none : exn
}.

Definition of_pyfloat (f : pyfloat) : pyval :=
  match f with
  | Finite x => PFloat x
  | Infinite negative => PInf negative
  | NotANumber => PNan
  end.

(** [float(v)] *)
Fixpoint py_float (X : externals) (v : pyval) : result pyval :=
  match v with
  | PFloat _ | PInf _ | PNan => Ok v
  | PInt n | PNpInt n =>
      match float_of_int X n with
      | Some x => Ok (PFloat x)
      | None => Raise OverflowError
      end
  | PBool b => Ok (PFloat (inject_Z (if b then 1 else 0)))
  | PStr s | PBytes s =>
      match float_of_text X s with
      | Some f => Ok (of_pyfloat f)
      | None => Raise ValueError
      end
  | PArray [x] =>
      if numpy_converts_size1 X then py_float X x else Raise TypeError
  | PNone | PList _ | PArray _ | PDict _ => Raise TypeError
  end.

(** What [json_encode] (that is, [json.dumps]) accepts: no [bytes], no
    numpy array, no numpy integer, at any depth. *)
Fixpoint json_encodable (v : pyval) : bool :=
  match v with
  | PNone | PBool _ | PInt _ | PFloat _ | PInf _ | PNan | PStr _ => true
  | PBytes _ | PArray _ | PNpInt _ => false
  | PList l => forallb json_encodable l
  | PDict d => forallb (fun kv => json_encodable (snd kv)) d
  end.

(** ** Storage, shared project and response state *)

Inductive file : Type :=
| FPickle (d : pydict)     (* a checkplot record *)
| FJson (v : pyval)        (* a JSON document *)
| FRaw (bytes : string).   (* anything else, e.g. an image *)

Inductive task : Type :=
| TRead (path : string)
| TUpdate (path : string) (updated : pydict)
| TPng (src dst : string).

Inductive event : Type :=
| EvExists (path : string)
| EvSubmit (t : task)
| EvOpenW (path : string).

(** What [finish()] flushed to the client. *)
Record response : Type := {
  rsp_status : Z;
  rsp_body : list pyval
}.

Record state : Type := {
  storage : gmap string file;        (* the file system *)
  currentproject : pydict;           (* the shared in-memory manifest *)
  status_code : Z;                   (* [self._status_code] *)
  write_buffer : list pyval;         (* chunks passed to [self.write] *)
  sent : option response;            (* [Some] once finished *)
  self_cpfile : option string;       (* [self.cpfile], unset at first *)
  trace : list event                 (* storage and pool accesses, in order *)
}.

Definition set_storage (f : gmap string file) (s : state) : state :=
  {| storage := f; currentproject := currentproject s;
     status_code := status_code s; write_buffer := write_buffer s;
     sent := sent s; self_cpfile := self_cpfile s; trace := trace s |}.

Definition set_currentproject (p : pydict) (s : state) : state :=
  {| storage := storage s; currentproject := p;
     status_code := status_code s; write_buffer := write_buffer s;
     sent := sent s; self_cpfile := self_cpfile s; trace := trace s |}.

Definition set_status_code (c : Z) (s : state) : state :=
  {| storage := storage s; currentproject := currentproject s;
     status_code := c; write_buffer := write_buffer s;
     sent := sent s; self_cpfile := self_cpfile s; trace := trace s |}.

Definition set_write_buffer (b : list pyval) (s : state) : state :=
  {| storage := storage s; currentproject := currentproject s;
     status_code := status_code s; write_buffer := b;
     sent := sent s; self_cpfile := self_cpfile s; trace := trace s |}.

Definition set_sent (r : option response) (s : state) : state :=
  {| storage := storage s; currentproject := currentproject s;
     status_code := status_code s; write_buffer := write_buffer s;
     sent := r; self_cpfile := self_cpfile s; trace := trace s |}.

Definition set_self_cpfile (n : option string) (s : state) : state :=
  {| storage := storage s; currentproject := currentproject s;
     status_code := status_code s; write_buffer := write_buffer s;
     sent := sent s; self_cpfile := n; trace := trace s |}.

Definition log (e : event) (s : state) : state :=
  {| storage := storage s; currentproject := currentproject s;
     status_code := status_code s; write_buffer := write_buffer s;
     sent := sent s; self_cpfile := self_cpfile s;
     trace := trace s ++ [e] |}.

(** A fresh handler instance serving one request. *)
Definition begin_request (fs : gmap string file) (project : pydict) : state :=
  {| storage := fs; currentproject := project; status_code := 200;
     write_buffer := []; sent := None; self_cpfile := None; trace := [] |}.

Definition finished (s : state) : bool :=
  match sent s with Some _ => true | None => false end.

(** The tasks handed to the executor during the request. *)
Fixpoint submissions (t : list event) : list task :=
  match t with
  | [] => []
  | EvSubmit k :: t' => k :: submissions t'
  | _ :: t' => submissions t'
  end.

(** ** The handler monad: state plus Python exceptions *)

Definition M (A : Type) : Type := state -> state * result A.

Definition ret {A} (a : A) : M A := fun s => (s, Ok a).

Definition bind {A B} (m : M A) (k : A -> M B) : M B :=
  fun s => match m s with
           | (s', Ok a) => k a s'
           | (s', Raise e) => (s', Raise e)
           end.

Definition raise {A} (e : exn) : M A := fun s => (s, Raise e).

Definition lift {A} (r : result A) : M A := fun s => (s, r).

(** [try: body / except Exception as e: handler] *)
Definition try_except {A} (body : M A) (handler : exn -> M A) : M A :=
  fun s => match body s with
           | (s', Ok a) => (s', Ok a)
           | (s', Raise e) => handler e s'
           end.

Definition when (b : bool) (m : M unit) : M unit :=
  if b then m else ret tt.

Definition get_state : M state := fun s => (s, Ok s).

Definition modify (f : state -> state) : M unit := fun s => (f s, Ok tt).

(** Reading the shared [self.currentproject]. *)
Definition get_currentproject : M pydict := fun s => (s, Ok (currentproject s)).

Declare Scope py_scope.
Delimit Scope py_scope with py.
Notation "'let!' x ':=' m 'in' k" := (bind m (fun x => k))
  (at level 10, x name, m at level 100, k at level 200) : py_scope.
Notation "m '>>' k" := (bind m (fun _ => k))
  (at level 90, right associativity) : py_scope.
Open Scope py_scope.

(** ** Tornado's [RequestHandler] *)

(** What [write] takes: [bytes], [str], or a [dict] that [json_encode]
    accepts. *)
Definition write_accepts (chunk : pyval) : bool :=
  match chunk with
  | PStr _ | PBytes _ => true
  | PDict _ => json_encodable chunk
  | _ => false
  end.

(** [self.write(chunk)]: refused once the request is finished; a [dict] is
    JSON-encoded at once, and a chunk that cannot be raises [TypeError]
    with nothing added to the buffer. *)
Definition write (chunk : pyval) : M unit :=
  fun s => if finished s
           then (s, Raise (RuntimeError "Cannot write() after finish()"))
           else if write_accepts chunk
           then (set_write_buffer (write_buffer s ++ [chunk]) s, Ok tt)
           else (s, Raise TypeError).

(** [self.write(chunk)] for a [dict] whose values all come out of
    [json.load] or [json.loads], [time.time()] and path strings: what JSON
    decoding produced [json_encode] accepts, so only the finished test is
    left. The manifest and the payload of a POST are such values; the fields
    of a record are not, and go through [write]. *)
Definition write_json_derived (chunk : pyval) : M unit :=
  fun s => if finished s
           then (s, Raise (RuntimeError "Cannot write() after finish()"))
           else (set_write_buffer (write_buffer s ++ [chunk]) s, Ok tt).

Definition finish : M unit :=
  fun s => if finished s
           then (s, Raise (RuntimeError "finish() called twice"))
           else (set_sent (Some {| rsp_status := status_code s;
                                   rsp_body := write_buffer s |}) s, Ok tt).

Definition set_status (c : Z) : M unit :=
  fun s => (set_status_code c s, Ok tt).

(** [self.get_argument(name, default=None)] on the request's arguments. *)
Definition get_argument (args : gmap string string) (name : string)
  : option string := args !! name.

(** ** [os.path.exists] and the executor *)

Definition os_path_exists (p : string) : M bool :=
  fun s => (log (EvExists p) s,
            Ok (match storage s !! p with Some _ => true | None => false end)).

(** [self.executor.submit(f, ...)] followed by [yield]: the task is logged,
    runs against the storage, and its result or exception comes back to the
    handler. *)
Definition executor_submit {A} (t : task)
    (run : gmap string file -> gmap string file * result A) : M A :=
  fun s => let (fs', r) := run (storage s) in
           (set_storage fs' (log (EvSubmit t) s), r).

(** Modelled from the spec: [_read_checkplot_picklefile] of
    [astrobase.checkplot], the record codec's [decode(path) -> Record]. It
    leaves storage alone, returns the record stored at [path], and raises when
    there is no file or the file does not decode to a record. *)
Definition _read_checkplot_picklefile (fs : gmap string file) (path : string)
  : gmap string file * result pydict :=
  match fs !! path with
  | Some (FPickle d) => (fs, Ok d)
  | Some _ => (fs, Raise (UnpicklingError path))
  | None => (fs, Raise (IOError path))
  end.

(** Modelled from the spec: [checkplot_pickle_update] of
    [astrobase.checkplot], the record store's [save]: a read-modify-write that
    loads the record on disk, overlays the caller-supplied fields and writes
    the merged record back, all or nothing (when the merged record cannot be
    serialised the file is left untouched). It returns the path written, or
    nothing on failure. *)
Definition checkplot_pickle_update (X : externals) (path : string)
    (updated : pydict) (fs : gmap string file)
  : gmap string file * result (option string) :=
  match fs !! path with
  | Some (FPickle current) =>
      let merged := Dict.update current updated in
      if encode_ok X merged
      then (<[path := FPickle merged]> fs, Ok (Some path))
      else (fs, Ok None)
  | Some _ => (fs, Raise (UnpicklingError path))
  | None => (fs, Ok None)
  end.

(** Modelled from the spec: [checkplot_pickle_to_png] of
    [astrobase.checkplot], the image renderer's [render(Record) -> blob]
    applied to the record at [src], the image being written to [dst]. *)
Definition checkplot_pickle_to_png (X : externals) (src dst : string)
    (fs : gmap string file) : gmap string file * result (option string) :=
  match fs !! src with
  | Some (FPickle d) =>
      match render X d with
      | RenderBlob bytes => (<[dst := FRaw bytes]> fs, Ok (Some dst))
      | RenderNothing => (fs, Ok None)
      | RenderRaises => (fs, Raise RenderError)
      end
  | Some _ => (fs, Raise (UnpicklingError src))
  | None => (fs, Ok None)
  end.

(** [os.path.abspath(cpfpath.replace('.pkl','.png'))] *)
Definition cpfpng_of (X : externals) (cpfpath : string) : string :=
  os_path_abspath X (str_replace ".pkl" ".png" cpfpath).

Definition py_opt_str (o : option string) : pyval :=
  match o with Some s => PStr s | None => PNone end.

(** ** Response envelopes *)

Definition envelope (status message : string) (readonly : bool)
    (res : pyval) : pyval :=
  PDict [(KStr "status", PStr status); (KStr "message", PStr message);
         (KStr "readonly", PBool readonly); (KStr "result", res)].

(** The envelope built without the ['readonly'] key. *)
Definition envelope3 (status message : string) (res : pyval) : pyval :=
  PDict [(KStr "status", PStr status); (KStr "message", PStr message);
         (KStr "result", res)].

Definition envelope_fields : list string :=
  ["status"; "message"; "readonly"; "result"].

Definition has_field (v : pyval) (k : string) : bool :=
  match v with PDict d => Dict.has (KStr k) d | _ => false end.

Definition has_all_fields (v : pyval) : bool :=
  forallb (has_field v) envelope_fields.

Definition field (v : pyval) (k : string) : option pyval :=
  match v with PDict d => Dict.get (KStr k) d | _ => None end.

Definition pkl_keys : list string := ["pdm"; "aov"; "bls"; "gls"; "sls"].

Definition update_keys : list string := ["varinfo"; "objectinfo"; "comments"].

(** ** The handlers *)

Section Handlers.

Variable X : externals.
(** [initialize(..., cplistfile, ..., readonly)] *)
Variable cplistfile : string.
Variable readonly : bool.

Definition getk (v : pyval) (k : string) : M pyval :=
  lift (py_getitem v (KStr k)).

Definition geti (v : pyval) (i : Z) : M pyval :=
  lift (py_getitem v (KInt i)).

(** [os.path.join(os.path.abspath(os.path.dirname(self.cplistfile)), name)] *)
Definition cpfpath_of (name : string) : string :=
  os_path_join (os_path_abspath X (os_path_dirname cplistfile)) name.

(** *** CheckplotHandler.get *)

(** [cpdict[key][i]['plot']], decoded when it is [bytes]. *)
Definition phasedlc_plot (cpdict : pydict) (key : string) (i : Z) : M pyval :=
  let! b := getk (PDict cpdict) key in
  let! e := geti b i in
  let! p := getk e "plot" in
  lift (decode_if_bytes p).

(** [float(cpdict[key][i][name])] *)
Definition phasedlc_float (cpdict : pydict) (key : string) (i : Z)
    (name : string) : M pyval :=
  let! b := getk (PDict cpdict) key in
  let! e := geti b i in
  let! x := getk e name in
  lift (py_float X x).

Definition phasedlc (cpdict : pydict) (key : string) (i : Z)
    (plot : pyval) : M pyval :=
  let! period := phasedlc_float cpdict key i "period" in
  let! epoch := phasedlc_float cpdict key i "epoch" in
  ret (PDict [(KStr "plot", plot); (KStr "period", period);
              (KStr "epoch", epoch)]).

(** The value stored under [resultdict['result'][key]]. *)
Definition periodogram_result (cpdict : pydict) (key : string) : M pyval :=
  let! b := getk (PDict cpdict) key in
  let! pg := getk b "periodogram" in
  let! periodogram := lift (decode_if_bytes pg) in
  let! phasedlc0plot := phasedlc_plot cpdict key 0 in
  let! phasedlc1plot := phasedlc_plot cpdict key 1 in
  let! phasedlc2plot := phasedlc_plot cpdict key 2 in
  let! b := getk (PDict cpdict) key in
  let! nbestperiods := getk b "nbestperiods" in
  let! b := getk (PDict cpdict) key in
  let! bestperiod := getk b "bestperiod" in
  let! lc0 := phasedlc cpdict key 0 phasedlc0plot in
  let! lc1 := phasedlc cpdict key 1 phasedlc1plot in
  let! lc2 := phasedlc cpdict key 2 phasedlc2plot in
  ret (PDict [(KStr "nbestperiods", nbestperiods);
              (KStr "periodogram", periodogram);
              (KStr "bestperiod", bestperiod);
              (KStr "phasedlc0", lc0);
              (KStr "phasedlc1", lc1);
              (KStr "phasedlc2", lc2)]).

(** [for key in ('pdm','aov','bls','gls','sls'): if key in cpdict: ...] *)
Fixpoint add_periodograms (cpdict : pydict) (keys : list string)
    (res : pydict) : M pydict :=
  match keys with
  | [] => ret res
  | key :: keys' =>
      if Dict.has (KStr key) cpdict then
        let! r := periodogram_result cpdict key in
        add_periodograms cpdict keys' (Dict.set (KStr key) r res)
      else add_periodograms cpdict keys' res
  end.

(** The ['result'] of a successful load. *)
Definition load_result (cpdict : pydict) : M pydict :=
  let! objectid := getk (PDict cpdict) "objectid" in
  let! objectinfo := getk (PDict cpdict) "objectinfo" in
  let! varinfo := getk (PDict cpdict) "varinfo" in
  let objectcomments :=
    match Dict.get (KStr "comments") cpdict with
    | Some c => c
    | None => PNone
    end in
  let! finderchart := getk (PDict cpdict) "finderchart" in
  let! ms := getk (PDict cpdict) "magseries" in
  let! magseries := getk ms "plot" in
  let! finderchart := lift (decode_if_bytes finderchart) in
  let! magseries := lift (decode_if_bytes magseries) in
  let! cpstatus := getk (PDict cpdict) "status" in
  let! ms := getk (PDict cpdict) "magseries" in
  let! times := getk ms "times" in
  let! ndet := lift (py_size times) in
  add_periodograms cpdict pkl_keys
    [(KStr "objectid", objectid);
     (KStr "objectinfo", objectinfo);
     (KStr "objectcomments", objectcomments);
     (KStr "varinfo", varinfo);
     (KStr "finderchart", finderchart);
     (KStr "magseries", magseries);
     (KStr "magseries_ndet", ndet);
     (KStr "cpstatus", cpstatus)].

Definition CheckplotHandler_get (checkplotfname : string) : M unit :=
  if truthy_str checkplotfname then
    match b64decode X checkplotfname with
    | None => raise BinasciiError
    | Some raw =>
        let name := xhtml_escape X raw in
        let! project := get_currentproject in
        let! cps := getk (PDict project) "checkplots" in
        let! member := lift (py_in name cps) in
        if member then
          let cpfpath := cpfpath_of name in
          let! found := os_path_exists cpfpath in
          when (negb found)
            (write (envelope3 "error"
                      ("couldn't find checkplot " +:+ cpfpath) PNone) >>
             finish) >>
          let! cpdict :=
            executor_submit (TRead cpfpath)
              (fun fs => _read_checkplot_picklefile fs cpfpath) in
          let! res := load_result cpdict in
          write (envelope "ok" ("found checkplot " +:+ name) readonly
                   (PDict res)) >>
          finish
        else
          write (envelope "error" "This checkplot doesn't exist."
                   readonly PNone) >>
          finish
    end
  else
    write (envelope "error" "No checkplot provided to load." readonly PNone).

(** *** CheckplotHandler.post *)

Definition readonly_message : string :=
  "checkplotserver is in readonly mode. no updates allowed.".

(** The guard both POST handlers open with. It answers, and the handler
    carries on with the statement after the [if]. *)
Definition readonly_guard : M unit :=
  when readonly
    (set_status 400 >>
     write (envelope "error" readonly_message readonly PNone) >>
     finish).

(** [json.loads(text)]: a [TypeError] for [None], a [ValueError] for text
    that is not JSON. *)
Definition py_json_loads (text : option string) : M pyval :=
  match text with
  | None => raise TypeError
  | Some t =>
      match json_loads X t with
      | Some v => ret v
      | None => raise ValueError
      end
  end.

(** The body of the [try] block. *)
Definition post_try (cpfile : string) (args : gmap string string) : M unit :=
  match b64decode X cpfile with
  | None => raise BinasciiError
  | Some name =>
      modify (set_self_cpfile (Some name)) >>
      let cpcontents := get_argument args "cpcontents" in
      let savetopng := get_argument args "savetopng" in
      when (negb (truthy_str name) || negb (truthy_opt cpcontents))
        (set_status 400 >>
         write (envelope "error"
                  "did not receive a checkplot update payload"
                  readonly PNone) >>
         finish) >>
      let! cpcontents := py_json_loads cpcontents in
      let! varinfo := getk cpcontents "varinfo" in
      let! objectinfo := getk cpcontents "objectinfo" in
      let! comments := getk cpcontents "comments" in
      let updated := [(KStr "varinfo", varinfo);
                      (KStr "objectinfo", objectinfo);
                      (KStr "comments", comments)] in
      let cpfpath := cpfpath_of name in
      let! found := os_path_exists cpfpath in
      when (negb found)
        (write (envelope "error"
                  ("couldn't find checkplot " +:+ cpfpath) readonly PNone) >>
         finish) >>
      let! updated :=
        executor_submit (TUpdate cpfpath updated)
          (checkplot_pickle_update X cpfpath updated) in
      if truthy_opt updated then
        let! cpfpng_field :=
          (if truthy_opt savetopng then
             let cpfpng := cpfpng_of X cpfpath in
             let! pngdone :=
               executor_submit (TPng cpfpath cpfpng)
                 (checkplot_pickle_to_png X cpfpath cpfpng) in
             let! made := os_path_exists cpfpng in
             ret (if made then PStr cpfpng else PStr "png making failed")
           else ret PNone) in
        write_json_derived
          (envelope "success" "checkplot update successful" readonly
             (PDict [(KStr "checkplot", py_opt_str updated);
                     (KStr "unixtime", PFloat (time_time X));
                     (KStr "changes", cpcontents);
                     (KStr "cpfpng", cpfpng_field)])) >>
        finish
      else
        set_status 500 >>
        write (envelope "error"
                 "checkplot update failed because of a backend error"
                 readonly PNone) >>
        finish
  end.

(** The [except Exception] clause. Its log line formats [self.cpfile],
    an attribute that exists only once the identifier has been decoded. *)
Definition post_except (e : exn) : M unit :=
  let! s := get_state in
  match self_cpfile s with
  | None => raise (AttributeError "cpfile")
  | Some _ =>
      set_status 500 >>
      write (envelope "error"
               "checkplot update failed because of an exception"
               readonly PNone) >>
      finish
  end.

Definition CheckplotHandler_post (cpfile : string)
    (args : gmap string string) : M unit :=
  readonly_guard >>
  try_except (post_try cpfile args) post_except.

(** *** CheckplotListHandler *)

Definition CheckplotListHandler_get : M unit :=
  let! project := get_currentproject in
  when (negb (Dict.has (KStr "reviewed") project))
    (modify (set_currentproject
               (Dict.set (KStr "reviewed") (PDict []) project))) >>
  let! project := get_currentproject in
  write_json_derived (PDict project).

(** [with open(self.cplistfile,'w') as outfd: json.dump(project, outfd)] *)
Definition json_dump_to (path : string) (v : pyval) : M unit :=
  fun s => (set_storage (<[path := FJson v]> (storage s))
                        (log (EvOpenW path) s), Ok tt).

Definition CheckplotListHandler_post (args : gmap string string) : M unit :=
  readonly_guard >>
  let objectid := get_argument args "objectid" in
  let changes := get_argument args "changes" in
  when (negb (truthy_opt objectid) || negb (truthy_opt changes))
    (write (envelope "error"
              ("could not parse changes to the checkplot filelist " +:+
               "from the frontend") readonly PNone) >>
     finish) >>
  match objectid with
  | None => raise (xhtml_escape_none X)
  | Some objectid =>
      let objectid := xhtml_escape X objectid in
      let! changes := py_json_loads changes in
      let! project := get_currentproject in
      when (negb (Dict.has (KStr "reviewed") project))
        (modify (set_currentproject
                   (Dict.set (KStr "reviewed") (PDict []) project))) >>
      let! project := get_currentproject in
      let! reviewed := getk (PDict project) "reviewed" in
      let! reviewed := lift (py_setitem reviewed (KStr objectid) changes) in
      modify (set_currentproject
                (Dict.set (KStr "reviewed") reviewed project)) >>
      let! project := get_currentproject in
      json_dump_to cplistfile (PDict project) >>
      write_json_derived
        (envelope "success"
           (("wrote all changes to the checkplot filelist " +:+
             "from the frontend for object: ") +:+ objectid)
           readonly
           (PDict [(KStr "objectid", PStr objectid);
                   (KStr "changes", changes)]))
  end.

(** *** LCToolHandler.get

    The request's arguments ([lctool], [toolarg]) are part of the request
    but the handler does not read them. *)
Definition LCToolHandler_get (cpfile : string)
    (args : gmap string string) : M unit :=
  if truthy_str cpfile then
    match b64decode X cpfile with
    | None => raise BinasciiError
    | Some raw =>
        let name := xhtml_escape X raw in
        modify (set_self_cpfile (Some name)) >>
        let! project := get_currentproject in
        let! cps := getk (PDict project) "checkplots" in
        let! member := lift (py_in name cps) in
        if member then
          let cpfpath := cpfpath_of name in
          let! found := os_path_exists cpfpath in
          when (negb found)
            (write (envelope3 "error"
                      ("couldn't find checkplot " +:+ cpfpath) PNone) >>
             finish) >>
          let! cpdict :=
            executor_submit (TRead cpfpath)
              (fun fs => _read_checkplot_picklefile fs cpfpath) in
          ret tt
        else
          write (envelope "error" "This checkplot doesn't exist."
                   readonly PNone) >>
          finish
    end
  else
    write (envelope "error" "No checkplot provided to load." readonly PNone).

End Handlers.

(** ** The transport layer around a handler

    Tornado runs the handler; when it returns without having finished, the
    response is finished for it; an exception that leaves the handler is a
    raw fault of the transport layer. *)

Record outcome : Type := {
  final : state;
  fault : option exn
}.

Definition execute (h : M unit) (s : state) : outcome :=
  match h s with
  | (s', Ok _) =>
      {| final := if finished s' then s' else fst (finish s');
         fault := None |}
  | (s', Raise e) => {| final := s'; fault := Some e |}
  end.

(** ** A concrete library

    Executable versions of the library functions, used to run the handlers
    on concrete requests. *)

Module Lib.

Definition code (c : ascii) : Z := Z.of_nat (nat_of_ascii c).

Definition chr (n : Z) : ascii := ascii_of_nat (Z.to_nat n).

(** The double quote character. *)
Definition dquote : ascii := chr 34.

(** *** base64 (standard alphabet, padded) *)

Definition b64_value (c : ascii) : option Z :=
  let n := code c in
  if (65 <=? n) && (n <=? 90) then Some (n - 65)
  else if (97 <=? n) && (n <=? 122) then Some (n - 71)
  else if (48 <=? n) && (n <=? 57) then Some (n + 4)
  else if n =? 43 then Some 62
  else if n =? 47 then Some 63
  else None.

Definition is_pad (c : ascii) : bool := code c =? 61.

Fixpoint b64_bytes (l : list ascii) : option (list ascii) :=
  match l with
  | [] => Some []
  | a :: b :: c :: d :: rest =>
      match b64_value a, b64_value b with
      | Some va, Some vb =>
          let b0 := chr (va * 4 + vb / 16) in
          if is_pad d then
            match rest with
            | [] =>
                if is_pad c then Some [b0]
                else match b64_value c with
                     | Some vc => Some [b0; chr (vb mod 16 * 16 + vc / 4)]
                     | None => None
                     end
            | _ => None
            end
          else
            match b64_value c, b64_value d, b64_bytes rest with
            | Some vc, Some vd, Some tl =>
                Some (b0 :: chr (vb mod 16 * 16 + vc / 4)
                         :: chr (vc mod 4 * 64 + vd) :: tl)
            | _, _, _ => None
            end
      | _, _ => None
      end
  | _ => None
  end.

Definition b64decode (s : string) : option string :=
  match b64_bytes (list_ascii_of_string s) with
  | Some l => Some (string_of_list_ascii l)
  | None => None
  end.

(** *** xhtml_escape *)

Definition escape_char (c : ascii) : string :=
  let n := code c in
  if n =? 38 then "&amp;"
  else if n =? 60 then "&lt;"
  else if n =? 62 then "&gt;"
  else if n =? 34 then "&quot;"
  else if n =? 39 then "&#39;"
  else String c EmptyString.

Fixpoint xhtml_escape (s : string) : string :=
  match s with
  | EmptyString => EmptyString
  | String c s' => escape_char c +:+ xhtml_escape s'
  end.

(** *** os.path.abspath, for a process whose working directory is [cwd] *)

Fixpoint split_slash (l : list ascii) (cur : list ascii)
  : list (list ascii) :=
  match l with
  | [] => [rev cur]
  | c :: l' =>
      if is_slash c then rev cur :: split_slash l' []
      else split_slash l' (c :: cur)
  end.

Definition is_dotdot (comp : list ascii) : bool :=
  String.eqb (string_of_list_ascii comp) "..".

Definition is_empty_or_dot (comp : list ascii) : bool :=
  match comp with
  | [] => true
  | [c] => code c =? 46
  | _ => false
  end.

(** The loop of [normpath]; [acc] is [new_comps] reversed. *)
Fixpoint norm_comps (absolute : bool) (comps acc : list (list ascii))
  : list (list ascii) :=
  match comps with
  | [] => rev acc
  | comp :: comps' =>
      if is_empty_or_dot comp then norm_comps absolute comps' acc
      else if negb (is_dotdot comp) then
             norm_comps absolute comps' (comp :: acc)
      else match acc with
           | [] => if absolute then norm_comps absolute comps' acc
                   else norm_comps absolute comps' (comp :: acc)
           | top :: acc' =>
               if is_dotdot top then norm_comps absolute comps' (comp :: acc)
               else norm_comps absolute comps' acc'
           end
  end.

Fixpoint join_slash (comps : list (list ascii)) : list ascii :=
  match comps with
  | [] => []
  | [c] => c
  | c :: comps' => (c ++ slash :: join_slash comps')%list
  end.

Definition os_path_normpath (path : string) : string :=
  match path with
  | EmptyString => "."
  | _ =>
      let l := list_ascii_of_string path in
      let absolute := String.prefix "/" path in
      let two := String.prefix "//" path && negb (String.prefix "///" path) in
      let body := join_slash (norm_comps absolute (split_slash l []) []) in
      let lead := if two then [slash; slash]
                  else if absolute then [slash] else [] in
      match (lead ++ body)%list with
      | [] => "."
      | r => string_of_list_ascii r
      end
  end.

Definition os_path_abspath (cwd path : string) : string :=
  if String.prefix "/" path then os_path_normpath path
  else os_path_normpath (os_path_join cwd path).

(** *** json.loads, on the JSON texts without escapes and fractions

    Objects, arrays, strings without backslash escapes, integers and the
    three literals; any other text is refused. *)

Definition is_ws (c : ascii) : bool :=
  let n := code c in (n =? 32) || (n =? 9) || (n =? 10) || (n =? 13).

Definition skip_ws (l : list ascii) : list ascii := drop_while is_ws l.

Definition is_digit (c : ascii) : bool := (48 <=? code c) && (code c <=? 57).

Fixpoint strip_prefix (p l : list ascii) : option (list ascii) :=
  match p, l with
  | [], _ => Some l
  | a :: p', b :: l' => if Ascii.eqb a b then strip_prefix p' l' else None
  | _ :: _, [] => None
  end.

(** The characters of a string up to its closing quote. *)
Fixpoint json_string (l acc : list ascii) : option (string * list ascii) :=
  match l with
  | [] => None
  | c :: l' =>
      if code c =? 34 then Some (string_of_list_ascii (rev acc), l')
      else if (code c =? 92) || (code c <? 32) then None
      else json_string l' (c :: acc)
  end.

Fixpoint json_digits (l : list ascii) (acc : Z) : Z * list ascii :=
  match l with
  | c :: l' =>
      if is_digit c then json_digits l' (acc * 10 + (code c - 48))
      else (acc, l)
  | [] => (acc, [])
  end.

Definition starts_fraction (l : list ascii) : bool :=
  match l with
  | c :: _ => (code c =? 46) || (code c =? 101) || (code c =? 69)
  | [] => false
  end.

(** An integer without sign: a lone [0], or digits not starting with 0. *)
Definition json_nat (l : list ascii) : option (Z * list ascii) :=
  match l with
  | c :: l' =>
      if negb (is_digit c) then None
      else
        let (n, rest) := if code c =? 48 then (0, l') else json_digits l 0 in
        if starts_fraction rest then None else Some (n, rest)
  | [] => None
  end.

Fixpoint json_value (fuel : nat) (l : list ascii) {struct fuel}
  : option (pyval * list ascii) :=
  match fuel with
  | O => None
  | S fuel' =>
      match skip_ws l with
      | [] => None
      | c :: r =>
          let n := code c in
          if n =? 123 then
            match skip_ws r with
            | c2 :: r2 =>
                if code c2 =? 125 then Some (PDict [], r2)
                else json_members fuel' (c2 :: r2) []
            | [] => None
            end
          else if n =? 91 then
            match skip_ws r with
            | c2 :: r2 =>
                if code c2 =? 93 then Some (PList [], r2)
                else json_items fuel' (c2 :: r2) []
            | [] => None
            end
          else if n =? 34 then
            match json_string r [] with
            | Some (s, rest) => Some (PStr s, rest)
            | None => None
            end
          else if n =? 45 then
            match json_nat r with
            | Some (k, rest) => Some (PInt (- k), rest)
            | None => None
            end
          else if is_digit c then
            match json_nat (c :: r) with
            | Some (k, rest) => Some (PInt k, rest)
            | None => None
            end
          else
            match strip_prefix (list_ascii_of_string "true") (c :: r),
                  strip_prefix (list_ascii_of_string "false") (c :: r),
                  strip_prefix (list_ascii_of_string "null") (c :: r) with
            | Some rest, _, _ => Some (PBool true, rest)
            | _, Some rest, _ => Some (PBool false, rest)
            | _, _, Some rest => Some (PNone, rest)
            | _, _, _ => None
            end
      end
  end
with json_members (fuel : nat) (l : list ascii) (acc : pydict) {struct fuel}
  : option (pyval * list ascii) :=
  match fuel with
  | O => None
  | S fuel' =>
      match l with
      | q :: r =>
          if negb (code q =? 34) then None
          else
            match json_string r [] with
            | Some (key, rest) =>
                match skip_ws rest with
                | colon :: rest' =>
                    if negb (code colon =? 58) then None
                    else
                      match json_value fuel' rest' with
                      | Some (v, rest'') =>
                          let acc' := Dict.set (KStr key) v acc in
                          match skip_ws rest'' with
                          | d :: tl =>
                              if code d =? 125 then Some (PDict acc', tl)
                              else if code d =? 44
                                   then json_members fuel' (skip_ws tl) acc'
                                   else None
                          | [] => None
                          end
                      | None => None
                      end
                | [] => None
                end
            | None => None
            end
      | [] => None
      end
  end
with json_items (fuel : nat) (l : list ascii) (acc : list pyval) {struct fuel}
  : option (pyval * list ascii) :=
  match fuel with
  | O => None
  | S fuel' =>
      match json_value fuel' l with
      | Some (v, rest) =>
          match skip_ws rest with
          | d :: tl =>
              if code d =? 93 then Some (PList (rev (v :: acc)), tl)
              else if code d =? 44 then json_items fuel' tl (v :: acc)
              else None
          | [] => None
          end
      | None => None
      end
  end.

Definition json_loads (text : string) : option pyval :=
  let l := list_ascii_of_string text in
  match json_value (S (List.length l)) l with
  | Some (v, rest) =>
      match skip_ws rest with
      | [] => Some v
      | _ => None
      end
  | None => None
  end.

(** A JSON string literal. *)
Definition quoted (s : string) : string :=
  String dquote s +:+ String dquote EmptyString.

(** *** float, on integers and on decimal literals

    The double nearest to a positive rational [p/q], ties to even, with the
    gradual underflow of IEEE 754 binary64; [None] when the result is beyond
    the largest double. *)

Definition round_half_even (p q : Z) : Z :=
  let d := p / q in
  let r := p mod q in
  if 2 * r <? q then d
  else if q <? 2 * r then d + 1
  else if Z.even d then d else d + 1.

Definition nearest_double (p q : Z) : option Q :=
  let e0 := Z.log2 p - Z.log2 q in
  let below :=
    if 0 <=? e0 then p <? q * 2 ^ e0 else p * 2 ^ (- e0) <? q in
  let e := if below then e0 - 1 else e0 in
  let u := Z.max (e - 52) (-1074) in
  if 0 <=? u then
    let v := round_half_even p (q * 2 ^ u) * 2 ^ u in
    if 2 ^ 1024 <=? v then None else Some (inject_Z v)
  else
    let m := round_half_even (p * 2 ^ (- u)) q in
    Some (Qred (Qmake m (Z.to_pos (2 ^ (- u))))).

(** [float(n)] for an [int]. *)
Definition float_of_int (n : Z) : option Q :=
  if n =? 0 then Some (inject_Z 0)
  else
    match nearest_double (Z.abs n) 1 with
    | Some x => Some (if n <? 0 then Qopp x else x)
    | None => None
    end.

Definition is_float_ws (c : ascii) : bool :=
  let n := code c in (n =? 32) || ((9 <=? n) && (n <=? 13)).

Definition lower (c : ascii) : ascii :=
  let n := code c in if (65 <=? n) && (n <=? 90) then chr (n + 32) else c.

(** Digits, with single underscores between them; the number read, how
    many digits it had, and what follows. *)
Fixpoint float_digits (l : list ascii) (acc count : Z)
  : Z * Z * list ascii :=
  match l with
  | c :: l' =>
      if is_digit c
      then float_digits l' (acc * 10 + (code c - 48)) (count + 1)
      else if (code c =? 95) && (0 <? count) then
        match l' with
        | d :: _ =>
            if is_digit d then float_digits l' acc count else (acc, count, l)
        | [] => (acc, count, l)
        end
      else (acc, count, l)
  | [] => (acc, count, [])
  end.

Definition float_sign (l : list ascii) : bool * list ascii :=
  match l with
  | c :: r =>
      if code c =? 45 then (true, r)
      else if code c =? 43 then (false, r)
      else (false, l)
  | [] => (false, [])
  end.

(** A decimal literal: the digits of its mantissa read as one integer, the
    power of ten that goes with them, and what follows. *)
Definition float_literal (l : list ascii) : option (Z * Z * list ascii) :=
  let '(ip, ni, r1) := float_digits l 0 0 in
  let '(mant, nf, r2) :=
    match r1 with
    | c :: r => if code c =? 46 then float_digits r ip 0 else (ip, 0, r1)
    | [] => (ip, 0, [])
    end in
  if ni + nf =? 0 then None
  else
    match r2 with
    | c :: r =>
        if (code c =? 101) || (code c =? 69) then
          let (negative, r3) := float_sign r in
          let '(x, nx, r4) := float_digits r3 0 0 in
          if nx =? 0 then None
          else Some (mant, (if negative then - x else x) - nf, r4)
        else Some (mant, - nf, r2)
    | [] => Some (mant, - nf, [])
    end.

Definition float_of_decimal (negative : bool) (mant exp10 : Z) : pyfloat :=
  if mant =? 0 then Finite (inject_Z 0)
  else
    let r := if 0 <=? exp10 then nearest_double (mant * 10 ^ exp10) 1
             else nearest_double mant (10 ^ (- exp10)) in
    match r with
    | Some x => Finite (if negative then Qopp x else x)
    | None => Infinite negative
    end.

(** [float(text)] on the texts Python takes: blanks around, a sign, then
    [inf], [infinity] or [nan] in any case, or a decimal literal. A zero
    keeps no sign. *)
Definition float_of_text (text : string) : option pyfloat :=
  let l := rev (drop_while is_float_ws
                  (rev (drop_while is_float_ws (list_ascii_of_string text)))) in
  let (negative, body) := float_sign l in
  let word := string_of_list_ascii (map lower body) in
  if (word =? "inf")%string || (word =? "infinity")%string
  then Some (Infinite negative)
  else if (word =? "nan")%string then Some NotANumber
  else
    match float_literal body with
    | Some (mant, exp10, []) => Some (float_of_decimal negative mant exp10)
    | _ => None
    end.

(** *** The library as the handlers see it

    With tornado 6.4 or later, where [xhtml_escape(None)] ends in
    [None.replace], and a NumPy that still converts an array of one
    element. *)

Definition posix (cwd : string) (now : Q) (enc : pydict -> bool)
    (rnd : pydict -> render_outcome) : externals :=
  Build_externals b64decode xhtml_escape json_loads (os_path_abspath cwd)
                  now enc rnd float_of_text float_of_int true
                  (AttributeError "replace").

End Lib.

(** ** Vocabulary of the properties *)

(** The payload is a JSON object with the three keys the update reads. *)
Definition has_update_keys (v : pyval) : bool :=
  match v with
  | PDict d => forallb (fun k => Dict.has (KStr k) d) update_keys
  | _ => false
  end.

(** The envelope's message contains [sub]. *)
Definition message_contains (sub : string) (env : pyval) : bool :=
  match field env "message" with
  | Some (PStr m) => is_substring sub m
  | _ => false
  end.

(** The record, if any, stored at [path]. *)
Definition record_at (fs : gmap string file) (path : string) : option pydict :=
  match fs !! path with
  | Some (FPickle d) => Some d
  | _ => None
  end.

(** The three fields the update handler passes to the merge. *)
Definition merge_fields (varinfo objectinfo comments : pyval) : pydict :=
  [(KStr "varinfo", varinfo); (KStr "objectinfo", objectinfo);
   (KStr "comments", comments)].

(** The envelope of a successful update; [cpfpng] is the rendered-artifact
    field. *)
Definition success_envelope (X : externals) (readonly : bool)
    (cpfpath : string) (changes cpfpng : pyval) : pyval :=
  envelope "success" "checkplot update successful" readonly
    (PDict [(KStr "checkplot", PStr cpfpath);
            (KStr "unixtime", PFloat (time_time X));
            (KStr "changes", changes);
            (KStr "cpfpng", cpfpng)]).

Definition exception_envelope (readonly : bool) : pyval :=
  envelope "error" "checkplot update failed because of an exception"
           readonly PNone.


(** A render fails when it gives no image: it returns without one, or it
    raises. *)
Definition render_fails (r : render_outcome) : bool :=
  match r with
  | RenderBlob _ => false
  | RenderNothing | RenderRaises => true
  end.

(** ** A project on disk

    The project of the scenarios: a manifest listing [obj1.pkl] and
    [obj2.pkl] under [/data/proj], and the record of [obj1.pkl]. *)

Module Scenario.

Definition cplistfile : string := "/data/proj/checkplot-filelist.json".

Definition now : Q := Qmake 1485907200 1.

(** A server started in [/srv] whose codec always serialises. *)
Definition lib (rnd : pydict -> render_outcome) : externals :=
  Lib.posix "/srv" now (fun _ => true) rnd.

Definition project : pydict :=
  [(KStr "checkplots", PList [PStr "obj1.pkl"; PStr "obj2.pkl"])].

Definition phased (period : Z) : pyval :=
  PDict [(KStr "plot", PBytes "cGhhc2Vk");
         (KStr "period", PFloat (inject_Z period));
         (KStr "epoch", PInt 2455000)].

Definition pdm_bundle : pyval :=
  PDict [(KStr "periodogram", PBytes "cGdyYW0=");
         (KStr "nbestperiods", PList [PInt 3; PInt 6; PInt 9]);
         (KStr "bestperiod", PInt 3);
         (KInt 0, phased 3); (KInt 1, phased 6); (KInt 2, phased 9)].

Definition record1 : pydict :=
  [(KStr "objectid", PStr "obj1");
   (KStr "objectinfo", PDict [(KStr "ndet", PInt 2)]);
   (KStr "varinfo", PDict [(KStr "objectisvar", PNone)]);
   (KStr "finderchart", PBytes "ZmluZGVy");
   (KStr "magseries",
      PDict [(KStr "plot", PBytes "bWFncw==");
             (KStr "times", PArray [PInt 1; PInt 2])]);
   (KStr "status", PStr "ok");
   (KStr "pdm", pdm_bundle)].

Definition obj1_path : string := "/data/proj/obj1.pkl".
Definition obj1_png : string := "/data/proj/obj1.png".
Definition other_path : string := "/data/proj/other.pkl".

(** The base64 forms of [obj1.pkl] and [other.pkl]. *)
Definition obj1_token : string := "b2JqMS5wa2w=".
Definition other_token : string := "b3RoZXIucGts".

Definition manifest_only : gmap string file :=
  {[ cplistfile := FJson (PDict project) ]}.

(** The manifest and the record of [obj1.pkl]. *)
Definition disk : gmap string file :=
  <[obj1_path := FPickle record1]> manifest_only.

(** As [disk], with a file [other.pkl] the manifest does not list. *)
Definition disk_with_stray : gmap string file :=
  <[other_path := FPickle record1]> disk.

(** As [disk], with an image left by an earlier render. *)
Definition disk_with_png : gmap string file :=
  <[obj1_png := FRaw "old image"]> disk.


(** The update payload
    [{"varinfo": {"objectisvar": 1}, "objectinfo": {"ndet": 2},
      "comments": ["looks periodic"], "status": "hacked"}]. *)
Definition payload_text : string :=
  "{" +:+ Lib.quoted "varinfo" +:+ ": {" +:+ Lib.quoted "objectisvar" +:+
  ": 1}, " +:+ Lib.quoted "objectinfo" +:+ ": {" +:+ Lib.quoted "ndet" +:+
  ": 2}, " +:+ Lib.quoted "comments" +:+ ": [" +:+
  Lib.quoted "looks periodic" +:+ "], " +:+ Lib.quoted "status" +:+ ": " +:+
  Lib.quoted "hacked" +:+ "}".

Definition payload : pyval :=
  PDict [(KStr "varinfo", PDict [(KStr "objectisvar", PInt 1)]);
         (KStr "objectinfo", PDict [(KStr "ndet", PInt 2)]);
         (KStr "comments", PList [PStr "looks periodic"]);
         (KStr "status", PStr "hacked")].

Definition update_args : gmap string string :=
  {[ "cpcontents" := payload_text ]}.

Definition update_png_args : gmap string string :=
  <["savetopng" := "true"]> update_args.

(** An update whose payload is the empty object. *)
Definition empty_payload_args : gmap string string :=
  {[ "cpcontents" := "{}" ]}.

(** A review of [obj1]: [objectid=obj1&changes=[1]]. *)
Definition review_args : gmap string string :=
  {[ "objectid" := "obj1"; "changes" := "[1]" ]}.

(** A BLS period search from period 10.0 down to period 1.0: the tool
    arguments are the base64 form of [startp=10.0&endp=1.0]. *)
Definition bls_args : gmap string string :=
  {[ "lctool" := "psearch-bls";
     "toolarg" := "c3RhcnRwPTEwLjAmZW5kcD0xLjA=" ]}.

Definition never_renders (d : pydict) : render_outcome := RenderNothing.
Definition render_raises (d : pydict) : render_outcome := RenderRaises.
Definition renders (d : pydict) : render_outcome := RenderBlob "image".

(** The record of [obj1.pkl] after [payload] has been merged. *)
Definition record1_merged : pydict :=
  [(KStr "objectid", PStr "obj1");
   (KStr "objectinfo", PDict [(KStr "ndet", PInt 2)]);
   (KStr "varinfo", PDict [(KStr "objectisvar", PInt 1)]);
   (KStr "finderchart", PBytes "ZmluZGVy");
   (KStr "magseries",
      PDict [(KStr "plot", PBytes "bWFncw==");
             (KStr "times", PArray [PInt 1; PInt 2])]);
   (KStr "status", PStr "ok");
   (KStr "pdm", pdm_bundle);
   (KStr "comments", PList [PStr "looks periodic"])].

End Scenario.

(** ** The index page *)

Fixpoint take_while {A} (p : A -> bool) (l : list A) : list A :=
  match l with
  | [] => []
  | x :: l' => if p x then x :: take_while p l' else []
  end.

(** [os.path.basename]: what follows the last slash. *)
Definition os_path_basename (p : string) : string :=
  string_of_list_ascii
    (rev (take_while (fun c => negb (is_slash c))
                     (rev (list_ascii_of_string p)))).

(** Ascending order on [str], by character codes. *)
Fixpoint insert_sorted (x : string) (l : list string) : list string :=
  match l with
  | [] => [x]
  | y :: l' => if String.leb x y then x :: l else y :: insert_sorted x l'
  end.

Definition sorted_strings (l : list string) : list string :=
  fold_right insert_sorted [] l.

Definition pykey_val (k : pykey) : pyval :=
  match k with KStr s => PStr s | KInt n => PInt n end.

(** The elements [iter(v)] yields. *)
Definition py_iter (v : pyval) : result (list pyval) :=
  match v with
  | PList l | PArray l => Ok l
  | PDict d => Ok (map (fun kv => pykey_val (fst kv)) d)
  | PStr s =>
      Ok (map (fun c => PStr (String c EmptyString)) (list_ascii_of_string s))
  | PBytes s =>
      Ok (map (fun c => PInt (Z.of_nat (nat_of_ascii c)))
              (list_ascii_of_string s))
  | _ => Raise TypeError
  end.

Fixpoint as_strings (l : list pyval) : option (list string) :=
  match l with
  | [] => Some []
  | PStr s :: l' =>
      match as_strings l' with Some ss => Some (s :: ss) | None => None end
  | _ :: _ => None
  end.

(** [sorted(v)] for the index page, whose next step applies
    [os.path.basename] to every element: an element that is not a [str]
    makes one of the two raise, which is modelled as a [TypeError] here. *)
Definition py_sorted (v : pyval) : result (list string) :=
  match py_iter v with
  | Ok l =>
      match as_strings l with
      | Some ss => Ok (sorted_strings ss)
      | None => Raise TypeError
      end
  | Raise e => Raise e
  end.

Section IndexPage.

(** The template engine behind [self.render]: the page for a template name
    and its keyword arguments. *)
Variable render_string : string -> pydict -> string.
Variable cplistfile : string.

(** [self.render(template, **kwargs)]: renders the page and finishes. *)
Definition self_render (template : string) (kwargs : pydict) : M unit :=
  fun s => if finished s
           then (s, Raise (RuntimeError "Cannot render() after finish()"))
           else (write (PStr (render_string template kwargs)) >> finish) s.

(** The keyword arguments of the index page. *)
Definition index_kwargs (project_checkplots : list string) : pydict :=
  [(KStr "project_checkplots", PList (map PStr project_checkplots));
   (KStr "project_checkplotbasenames",
      PList (map (fun x => PStr (os_path_basename x)) project_checkplots));
   (KStr "project_checkplotindices",
      PList (map (fun i => PInt (Z.of_nat i))
                 (seq 0 (length project_checkplots))));
   (KStr "project_checkplotfile", PStr cplistfile)].

Definition IndexHandler_get : M unit :=
  let! project := get_currentproject in
  let! cps := lift (py_getitem (PDict project) (KStr "checkplots")) in
  let! project_checkplots := lift (py_sorted cps) in
  self_render "cpindex.html" (index_kwargs project_checkplots).

End IndexPage.

(** ** Further vocabulary *)

(** Events that only look at storage. *)
Definition is_read_event (e : event) : bool :=
  match e with
  | EvExists _ => true
  | EvSubmit (TRead _) => true
  | _ => false
  end.

(** A computation that leaves storage and the shared project as they are
    and adds only looks at storage to the trace. *)
Definition read_only {A} (m : M A) : Prop :=
  forall s,
    storage (fst (m s)) = storage s /\
    currentproject (fst (m s)) = currentproject s /\
    exists evs, trace (fst (m s)) = (trace s ++ evs)%list /\
                forallb is_read_event evs = true.

(** A computation that neither reads nor writes the shared project. *)
Definition project_blind {A} (m : M A) : Prop :=
  forall s p, m (set_currentproject p s)
              = (set_currentproject p (fst (m s)), snd (m s)).

(** The keys a record needs for a load to assemble its answer. *)
Definition required_keys : list string :=
  ["objectid"; "objectinfo"; "varinfo"; "finderchart"; "magseries";
   "status"].

(** The keys of the ['result'] of a load, periodograms aside. *)
Definition result_keys : list string :=
  ["objectid"; "objectinfo"; "objectcomments"; "varinfo"; "finderchart";
   "magseries"; "magseries_ndet"; "cpstatus"].

(** The review annotations of a project: none yet, or a dictionary. *)
Definition reviewed_of (project : pydict) : option pydict :=
  match Dict.get (KStr "reviewed") project with
  | None => Some []
  | Some (PDict r) => Some r
  | Some _ => None
  end.

(** The project once [objectid] has been given the review [changes]. *)
Definition with_review (project reviewed : pydict) (objectid : string)
    (changes : pyval) : pydict :=
  Dict.set (KStr "reviewed")
           (PDict (Dict.set (KStr objectid) changes reviewed)) project.

(** The state in which the next request starts: storage and the shared
    project live on, the response is a new one. *)
Definition next_request (o : outcome) : state :=
  begin_request (storage (final o)) (currentproject (final o)).

Definition review_envelope (readonly : bool) (objectid : string)
    (changes : pyval) : pyval :=
  envelope "success"
    (("wrote all changes to the checkplot filelist " +:+
      "from the frontend for object: ") +:+ objectid)
    readonly
    (PDict [(KStr "objectid", PStr objectid); (KStr "changes", changes)]).

(** ** More of the project on disk *)

Module Cases.

Import Scenario.

(** A record without periodograms and without comments. *)
Definition record2 : pydict :=
  [(KStr "objectid", PStr "obj2");
   (KStr "objectinfo", PDict [(KStr "ndet", PInt 3)]);
   (KStr "varinfo", PDict [(KStr "objectisvar", PNone)]);
   (KStr "finderchart", PBytes "ZmluZGVy");
   (KStr "magseries",
      PDict [(KStr "plot", PBytes "bWFncw==");
             (KStr "times", PArray [PInt 1; PInt 2; PInt 3])]);
   (KStr "status", PStr "ok")].

(** The same record without its [status]. *)
Definition record2_no_status : pydict :=
  [(KStr "objectid", PStr "obj2");
   (KStr "objectinfo", PDict [(KStr "ndet", PInt 3)]);
   (KStr "varinfo", PDict [(KStr "objectisvar", PNone)]);
   (KStr "finderchart", PBytes "ZmluZGVy");
   (KStr "magseries",
      PDict [(KStr "plot", PBytes "bWFncw==");
             (KStr "times", PArray [PInt 1; PInt 2; PInt 3])])].

Definition obj2_path : string := "/data/proj/obj2.pkl".

(** The base64 form of [obj2.pkl]. *)
Definition obj2_token : string := "b2JqMi5wa2w=".

Definition disk2 : gmap string file :=
  <[obj2_path := FPickle record2]> disk.

Definition disk2_no_status : gmap string file :=
  <[obj2_path := FPickle record2_no_status]> disk.

(** The same record as the pipeline leaves it, with a numpy integer for
    the number of detections. *)
Definition record2_numpy : pydict :=
  Dict.set (KStr "objectinfo") (PDict [(KStr "ndet", PNpInt 3)]) record2.

Definition disk2_numpy : gmap string file :=
  <[obj2_path := FPickle record2_numpy]> disk.

(** The same record with a finder chart that is not UTF-8 (the byte 255). *)
Definition record2_bad_image : pydict :=
  Dict.set (KStr "finderchart")
    (PBytes (String (Lib.chr 255) EmptyString)) record2.

Definition disk2_bad_image : gmap string file :=
  <[obj2_path := FPickle record2_bad_image]> disk.

(** A record kept under a name without [.pkl], and the base64 form of
    that name, [obj3.pickle]. *)
Definition obj3_path : string := "/data/proj/obj3.pickle".
Definition obj3_token : string := "b2JqMy5waWNrbGU=".

Definition disk3 : gmap string file :=
  <[obj3_path := FPickle record1]> disk.

(** A server whose codec never manages to serialise. *)
Definition lib_no_encode : externals :=
  Lib.posix "/srv" now (fun _ => false) never_renders.

(** The server of the scenarios with a renderer that gives up quietly. *)
Definition X0 : externals := lib never_renders.

(** [obj2.pkl] with a [gls] bundle that has only two phased light curves. *)
Definition record2_short_bundle : pydict :=
  (record2 ++
   [(KStr "gls",
     PDict [(KStr "periodogram", PBytes "cGdyYW0=");
            (KStr "nbestperiods", PList [PInt 3; PInt 6]);
            (KStr "bestperiod", PInt 3);
            (KInt 0, phased 3); (KInt 1, phased 6)])])%list.

Definition disk2_short_bundle : gmap string file :=
  <[obj2_path := FPickle record2_short_bundle]> disk.

(** A token that is not base64. *)
Definition bad_token : string := "abc".

Definition no_args : gmap string string := ∅.

(** A second review of [obj1]: [objectid=obj1&changes=[2]]. *)
Definition review_args2 : gmap string string :=
  {[ "objectid" := "obj1"; "changes" := "[2]" ]}.

(** A review without its changes. *)
Definition review_args_no_changes : gmap string string :=
  {[ "objectid" := "obj1" ]}.

(** A template engine that renders a page as the name of its template. *)
Definition plain_page (template : string) (kwargs : pydict) : string :=
  template.

End Cases.

(** * Properties *)

(** ** Dictionaries *)

Lemma dict_get_set_eq (k : pykey) (v : pyval) (d : pydict) :
  Dict.get k (Dict.set k v d) = Some v.
Proof.
  induction d as [|[k' v'] d IH]; simpl.
  - destruct (decide (k = k)); congruence.
  - destruct (decide (k = k')) as [->|Hne]; simpl.
    + destruct (decide (k' = k')); congruence.
    + destruct (decide (k = k')); [contradiction|exact IH].
Qed.

Lemma dict_get_set_ne (k k' : pykey) (v : pyval) (d : pydict) :
  k <> k' -> Dict.get k' (Dict.set k v d) = Dict.get k' d.
Proof.
  intros Hne. induction d as [|[k0 v0] d IH]; simpl.
  - destruct (decide (k' = k)); congruence.
  - destruct (decide (k = k0)) as [->|Hk]; simpl.
    + destruct (decide (k' = k0)); congruence.
    + destruct (decide (k' = k0)); [reflexivity|exact IH].
Qed.

Lemma dict_has_set (k : pykey) (v : pyval) (d : pydict) :
  Dict.has k (Dict.set k v d) = true.
Proof. unfold Dict.has. now rewrite dict_get_set_eq. Qed.

Lemma dict_set_changes (k : pykey) (v : pyval) (d : pydict) :
  Dict.has k d = false -> Dict.set k v d <> d.
Proof.
  intros Hno Heq. pose proof (dict_has_set k v d) as H.
  rewrite Heq in H. congruence.
Qed.

Lemma existsb_is_pystr (name : string) (l : list pyval) :
  existsb (is_pystr name) l = true <-> PStr name ∈ l.
Proof.
  rewrite existsb_exists, list_elem_of_In. split.
  - intros [v [Hin Hv]]. destruct v; simpl in Hv; try discriminate.
    apply String.eqb_eq in Hv. now subst.
  - intros Hin. exists (PStr name). split; [exact Hin|].
    simpl. apply String.eqb_refl.
Qed.

Lemma truthy_str_true (s : string) : s <> "" -> truthy_str s = true.
Proof. destruct s; [congruence|reflexivity]. Qed.

(** ** The manifest read *)

(** C10: reading the manifest is not free of side effects. When the shared
    in-memory project has no ['reviewed'] key the read inserts an empty
    mapping under it before answering, so after any manifest read the shared
    project has a ['reviewed'] key, although nothing was written: storage is
    untouched and the answer is the project as it now stands. *)
Theorem manifest_read_inserts_reviewed
    (fs : gmap string file) (project : pydict) :
  let o := execute CheckplotListHandler_get (begin_request fs project) in
  Dict.has (KStr "reviewed") (currentproject (final o)) = true /\
  currentproject (final o) =
    (if Dict.has (KStr "reviewed") project then project
     else Dict.set (KStr "reviewed") (PDict []) project) /\
  (if Dict.has (KStr "reviewed") project then True
   else currentproject (final o) <> project) /\
  storage (final o) = fs /\
  trace (final o) = [] /\
  fault o = None /\
  sent (final o) = Some {| rsp_status := 200;
                           rsp_body := [PDict (currentproject (final o))] |}.
Proof.
  unfold execute, CheckplotListHandler_get, bind, when, get_currentproject,
    begin_request, modify, write, finished; simpl.
  destruct (Dict.has (KStr "reviewed") project) eqn:Hrev; simpl.
  - repeat split; auto.
  - repeat split; auto using dict_has_set, dict_set_changes.
Qed.

(** Runs a handler symbolically: unfolds the monad and the primitives. *)
Ltac run_handler :=
  unfold execute, CheckplotHandler_post, CheckplotHandler_get,
    LCToolHandler_get, CheckplotListHandler_post,
    readonly_guard, try_except, post_try, post_except, json_dump_to,
    py_json_loads, getk, get_argument, get_currentproject;
  unfold bind, when, ret, raise, lift, modify, get_state, set_status, write,
    finish, finished, os_path_exists, executor_submit, begin_request;
  simpl.

(** Case analysis on the scrutinee of the first [match] of the goal. *)
Ltac split_match :=
  match goal with
  | |- context [match ?x with _ => _ end] =>
      let E := fresh "E" in destruct x eqn:E; simpl
  end.

(** ** Loading a record *)

Section Load.

Variable X : externals.
Variable cplistfile : string.
Variable readonly : bool.

(** C5: a load whose identifier is not in the project manifest is answered
    with the envelope [{status: "error", message: "This checkplot doesn't
    exist."}] and storage is never touched: no existence test, no task for
    the pool, no write. The file system plays no part, so the answer is the
    same whether or not a file of that name is on disk. *)
Theorem load_unknown_identifier
    (fs : gmap string file) (project : pydict)
    (token raw : string) (ids : list pyval) :
  token <> "" ->
  b64decode X token = Some raw ->
  Dict.get (KStr "checkplots") project = Some (PList ids) ->
  PStr (xhtml_escape X raw) ∉ ids ->
  let o := execute (CheckplotHandler_get X cplistfile readonly token)
                   (begin_request fs project) in
  sent (final o) =
    Some {| rsp_status := 200;
            rsp_body := [envelope "error" "This checkplot doesn't exist."
                                  readonly PNone] |} /\
  fault o = None /\
  trace (final o) = [] /\
  storage (final o) = fs /\
  currentproject (final o) = project.
Proof.
  intros Htok Hdec Hcps Hnot.
  assert (Hno : existsb (is_pystr (xhtml_escape X raw)) ids = false).
  { destruct (existsb _ ids) eqn:E; [|reflexivity].
    apply existsb_is_pystr in E. contradiction. }
  run_handler. rewrite (truthy_str_true _ Htok), Hdec. simpl.
  rewrite Hcps. simpl. rewrite Hno. simpl.
  repeat split.
Qed.

End Load.

(** ** Updating a record *)

Section Update.

Variable X : externals.
Variable cplistfile : string.

(** C8, as the code satisfies it: an update that passes the two guards (the
    server is not read-only, the identifier decodes to a non-empty name and a
    payload is present) and whose JSON payload lacks one of the keys
    [varinfo], [objectinfo], [comments] raises; the exception is turned into
    the 500 error envelope, nothing is handed to the pool and storage is left
    as it was. *)
Theorem update_missing_key_is_500
    (fs : gmap string file) (project : pydict)
    (token name text : string) (args : gmap string string)
    (payload : pyval) :
  b64decode X token = Some name ->
  name <> "" ->
  args !! "cpcontents" = Some text ->
  text <> "" ->
  json_loads X text = Some payload ->
  has_update_keys payload = false ->
  let o := execute (CheckplotHandler_post X cplistfile false token args)
                   (begin_request fs project) in
  (exists s' e, post_try X cplistfile false token args
                  (begin_request fs project) = (s', Raise e)) /\
  sent (final o) = Some {| rsp_status := 500;
                           rsp_body := [exception_envelope false] |} /\
  fault o = None /\
  submissions (trace (final o)) = [] /\
  storage (final o) = fs.
Proof.
  intros Hdec Hname Harg Htext Hparse Hkeys.
  run_handler. rewrite Hdec. unfold get_argument. rewrite Harg. simpl.
  rewrite (truthy_str_true _ Hname), (truthy_str_true _ Htext). simpl.
  rewrite Hparse. simpl.
  destruct payload; simpl in *;
    try (repeat split; eauto; fail).
  unfold Dict.has in Hkeys.
  destruct (Dict.get (KStr "varinfo") d); simpl in *;
    [|repeat split; eauto].
  destruct (Dict.get (KStr "objectinfo") d); simpl in *;
    [|repeat split; eauto].
  destruct (Dict.get (KStr "comments") d); simpl in *;
    [discriminate|repeat split; eauto].
Qed.

Lemma record_at_Some (fs : gmap string file) (p : string) (d : pydict) :
  record_at fs p = Some d -> fs !! p = Some (FPickle d).
Proof.
  unfold record_at. destruct (fs !! p) as [[]|]; congruence.
Qed.

Lemma os_path_join_truthy (a b : string) :
  b <> "" -> truthy_str (os_path_join a b) = true.
Proof.
  intros Hb. unfold os_path_join.
  destruct (String.prefix "/" b); [now apply truthy_str_true|].
  destruct (negb (truthy_str a) || ends_with_slash a);
    destruct a; simpl; try reflexivity.
  now apply truthy_str_true.
Qed.







(** C7, as the code satisfies it: when the merge has succeeded and the
    requested render fails, by returning without an image or by raising,
    the merge is not rolled back: the merged record is what the record file
    holds after the request, and the storage is that of the merge alone.
    When the renderer returns without an image the envelope reports the
    update as a success, and its [cpfpng] field carries the marker ["png
    making failed"] exactly when no file sits at the image path after the
    request; when one does, the field carries that path. When the renderer
    raises, the envelope is the 500 error envelope. *)
Theorem render_failure_keeps_merge
    (fs : gmap string file) (project : pydict)
    (token name text flag : string) (args : gmap string string)
    (payload current : pydict) (varinfo objectinfo comments : pyval) :
  let cpfpath := cpfpath_of X cplistfile name in
  let cpfpng := cpfpng_of X cpfpath in
  let merged :=
    Dict.update current (merge_fields varinfo objectinfo comments) in
  b64decode X token = Some name ->
  name <> "" ->
  args !! "cpcontents" = Some text ->
  text <> "" ->
  json_loads X text = Some (PDict payload) ->
  Dict.get (KStr "varinfo") payload = Some varinfo ->
  Dict.get (KStr "objectinfo") payload = Some objectinfo ->
  Dict.get (KStr "comments") payload = Some comments ->
  record_at fs cpfpath = Some current ->
  encode_ok X merged = true ->
  args !! "savetopng" = Some flag ->
  flag <> "" ->
  render_fails (render X merged) = true ->
  let o := execute (CheckplotHandler_post X cplistfile false token args)
                   (begin_request fs project) in
  storage (final o) = <[cpfpath := FPickle merged]> fs /\
  record_at (storage (final o)) cpfpath = Some merged /\
  fault o = None /\
  sent (final o) =
    match render X merged with
    | RenderRaises =>
        Some {| rsp_status := 500;
                rsp_body := [exception_envelope false] |}
    | RenderNothing | RenderBlob _ =>
        Some {| rsp_status := 200;
                rsp_body :=
                  [success_envelope X false cpfpath (PDict payload)
                     (match storage (final o) !! cpfpng with
                      | Some _ => PStr cpfpng
                      | None => PStr "png making failed"
                      end)] |}
    end.
Proof.
  intros cpfpath cpfpng merged Hdec Hname Harg Htext Hparse Hv Ho Hc Hrec
    Henc Hsave Hflag Hfails.
  apply record_at_Some in Hrec.
  assert (Htruthy : truthy_str cpfpath = true)
    by (apply os_path_join_truthy; exact Hname).
  run_handler. rewrite Hdec. unfold get_argument. rewrite Harg, Hsave. simpl.
  rewrite (truthy_str_true _ Hname), (truthy_str_true _ Htext),
    (truthy_str_true _ Hflag). simpl.
  rewrite Hparse. simpl. rewrite Hv, Ho, Hc. simpl.
  fold cpfpath. rewrite Hrec. simpl.
  unfold checkplot_pickle_update. rewrite Hrec.
  fold (merge_fields varinfo objectinfo comments). fold merged.
  rewrite Henc. simpl. rewrite Htruthy. simpl. fold cpfpng.
  unfold checkplot_pickle_to_png. rewrite lookup_insert_eq.
  unfold record_at.
  destruct (render X merged); simpl in *; [discriminate| |].
  - destruct (<[cpfpath := FPickle merged]> fs !! cpfpng); simpl;
      rewrite lookup_insert_eq; repeat split.
  - rewrite lookup_insert_eq. repeat split.
Qed.


End Update.

(** ** A listed record whose file is missing, and the tool dispatch *)

Section Dispatch.

Variable X : externals.
Variable cplistfile : string.
Variable readonly : bool.

Lemma couldnt_find_contains (path : string) (res : list (pykey * pyval)) :
  message_contains "couldn't find"
    (PDict ((KStr "status", PStr "error")
            :: (KStr "message", PStr ("couldn't find checkplot " +:+ path))
            :: res)) = true.
Proof. reflexivity. Qed.

(** C4: a load whose identifier is listed in the manifest but whose file is
    not on disk is answered with an error envelope whose message contains
    ["couldn't find"], which is not the unknown-identifier envelope. The
    handler does not stop there: it hands the read of the missing file to
    the pool, and the exception of that read leaves the handler. *)
Theorem load_missing_file_goes_on
    (fs : gmap string file) (project : pydict)
    (token raw : string) (ids : list pyval) :
  let cpfpath := cpfpath_of X cplistfile (xhtml_escape X raw) in
  token <> "" ->
  b64decode X token = Some raw ->
  Dict.get (KStr "checkplots") project = Some (PList ids) ->
  PStr (xhtml_escape X raw) ∈ ids ->
  fs !! cpfpath = None ->
  let o := execute (CheckplotHandler_get X cplistfile readonly token)
                   (begin_request fs project) in
  (exists env,
      sent (final o) = Some {| rsp_status := 200; rsp_body := [env] |} /\
      field env "status" = Some (PStr "error") /\
      message_contains "couldn't find" env = true /\
      field env "message" <> Some (PStr "This checkplot doesn't exist.")) /\
  trace (final o) = [EvExists cpfpath; EvSubmit (TRead cpfpath)] /\
  submissions (trace (final o)) = [TRead cpfpath] /\
  fault o = Some (IOError cpfpath).
Proof.
  intros cpfpath Htok Hdec Hcps Hin Hnone.
  apply existsb_is_pystr in Hin.
  run_handler. rewrite (truthy_str_true _ Htok), Hdec. simpl.
  rewrite Hcps. simpl. rewrite Hin. simpl.
  fold cpfpath. unfold _read_checkplot_picklefile.
  repeat (rewrite Hnone; simpl).
  split; [|repeat split].
  eexists. split; [reflexivity|]. split; [reflexivity|].
  split; [apply couldnt_find_contains|discriminate].
Qed.

(** C9: the error envelope for a missing record file, in the load handler
    and in the tool-dispatch handler alike, has the fields [status],
    [message] and [result] but no [readonly] field. *)
Theorem missing_file_envelope_lacks_readonly
    (fs : gmap string file) (project : pydict)
    (token raw : string) (ids : list pyval) (args : gmap string string) :
  let cpfpath := cpfpath_of X cplistfile (xhtml_escape X raw) in
  token <> "" ->
  b64decode X token = Some raw ->
  Dict.get (KStr "checkplots") project = Some (PList ids) ->
  PStr (xhtml_escape X raw) ∈ ids ->
  fs !! cpfpath = None ->
  let o := execute (CheckplotHandler_get X cplistfile readonly token)
                   (begin_request fs project) in
  let t := execute (LCToolHandler_get X cplistfile readonly token args)
                   (begin_request fs project) in
  let env := envelope3 "error" ("couldn't find checkplot " +:+ cpfpath)
                       PNone in
  sent (final o) = Some {| rsp_status := 200; rsp_body := [env] |} /\
  sent (final t) = Some {| rsp_status := 200; rsp_body := [env] |} /\
  has_field env "status" = true /\
  has_field env "message" = true /\
  has_field env "result" = true /\
  has_field env "readonly" = false /\
  has_all_fields env = false.
Proof.
  intros cpfpath Htok Hdec Hcps Hin Hnone.
  apply existsb_is_pystr in Hin.
  run_handler. rewrite (truthy_str_true _ Htok), Hdec. simpl.
  rewrite Hcps. simpl. rewrite Hin. simpl.
  fold cpfpath. unfold _read_checkplot_picklefile.
  repeat (rewrite Hnone; simpl).
  repeat split.
Qed.

(** C2, as the code satisfies it: the tool-dispatch handler neither reads nor
    validates the tool parameters. Whatever they are, a request whose
    identifier is listed in the manifest hands exactly one task to the pool,
    the load of the record, and the outcome of the request is the same as for
    any other parameters: no parameter error is ever signalled. *)
Theorem tool_dispatch_ignores_parameters
    (fs : gmap string file) (project : pydict)
    (token raw : string) (ids : list pyval) (args : gmap string string) :
  let cpfpath := cpfpath_of X cplistfile (xhtml_escape X raw) in
  token <> "" ->
  b64decode X token = Some raw ->
  Dict.get (KStr "checkplots") project = Some (PList ids) ->
  PStr (xhtml_escape X raw) ∈ ids ->
  let o := execute (LCToolHandler_get X cplistfile readonly token args)
                   (begin_request fs project) in
  submissions (trace (final o)) = [TRead cpfpath] /\
  forall args' : gmap string string,
    execute (LCToolHandler_get X cplistfile readonly token args')
            (begin_request fs project) = o.
Proof.
  intros cpfpath Htok Hdec Hcps Hin.
  split; [|reflexivity].
  apply existsb_is_pystr in Hin.
  run_handler. rewrite (truthy_str_true _ Htok), Hdec. simpl.
  rewrite Hcps. simpl. rewrite Hin. simpl.
  fold cpfpath. unfold _read_checkplot_picklefile. simpl.
  destruct (fs !! cpfpath) as [[]|] eqn:E; simpl; rewrite ?E; reflexivity.
Qed.

End Dispatch.

(** ** The scenarios, run *)

Module Runs.

Import Scenario.

Definition ids : list pyval := [PStr "obj1.pkl"; PStr "obj2.pkl"].

Lemma obj1_listed (rnd : pydict -> render_outcome) :
  PStr (xhtml_escape (lib rnd) "obj1.pkl") ∈ ids.
Proof. apply existsb_is_pystr. reflexivity. Qed.

(** C1: with the server read-only, an update of [obj1.pkl] is answered
    with the 400 read-only envelope, yet the record on disk is replaced by
    the merged record; a manifest write is answered with the same envelope,
    yet the manifest file (and the shared project) gain the review. In both
    cases the exception of the second answer leaves the handler. *)
Theorem readonly_posts_still_write :
  let o := execute (CheckplotHandler_post (lib never_renders) cplistfile
                      true obj1_token update_args)
                   (begin_request disk project) in
  let m := execute (CheckplotListHandler_post (lib never_renders) cplistfile
                      true review_args)
                   (begin_request disk project) in
  let refused :=
    Some {| rsp_status := 400;
            rsp_body := [envelope "error" readonly_message true PNone] |} in
  let reviewed :=
    (project ++
     [(KStr "reviewed", PDict [(KStr "obj1", PList [PInt 1])])])%list in
  (sent (final o) = refused /\
   record_at disk obj1_path = Some record1 /\
   record_at (storage (final o)) obj1_path = Some record1_merged /\
   storage (final o) <> disk /\
   fault o = Some (RuntimeError "Cannot write() after finish()")) /\
  (sent (final m) = refused /\
   disk !! cplistfile = Some (FJson (PDict project)) /\
   storage (final m) !! cplistfile = Some (FJson (PDict reviewed)) /\
   storage (final m) <> disk /\
   currentproject (final m) = reviewed /\
   fault m = Some (RuntimeError "Cannot write() after finish()")).
Proof.
  split; repeat split; try (vm_compute; reflexivity).
  - intros H. apply (f_equal (fun fs => record_at fs obj1_path)) in H.
    vm_compute in H. discriminate H.
  - intros H.
    apply (f_equal (fun fs : gmap string file => fs !! cplistfile)) in H.
    vm_compute in H. discriminate H.
Qed.

(** C2 does not hold as stated: a BLS search on the listed record [obj1.pkl]
    with a start period of 10.0 and an end period of 1.0 hands one task to
    the pool and is answered with an empty success, not with a parameter
    error. *)
Lemma tool_dispatch_bad_periods_dispatched :
  let o := execute (LCToolHandler_get (lib never_renders) cplistfile false
                      obj1_token bls_args)
                   (begin_request disk project) in
  bls_args !! "lctool" = Some "psearch-bls" /\
  (bls_args !! "toolarg") ≫= Lib.b64decode = Some "startp=10.0&endp=1.0" /\
  submissions (trace (final o)) = [TRead obj1_path] /\
  length (submissions (trace (final o))) <> 0%nat /\
  sent (final o) = Some {| rsp_status := 200; rsp_body := [] |} /\
  fault o = None.
Proof.
  repeat split; try (vm_compute; reflexivity).
  vm_compute. discriminate.
Qed.

Lemma tool_dispatch_ignores_parameters_witness :
  let o := execute (LCToolHandler_get (lib never_renders) cplistfile false
                      obj1_token bls_args)
                   (begin_request disk project) in
  submissions (trace (final o)) =
    [TRead (cpfpath_of (lib never_renders) cplistfile
              (xhtml_escape (lib never_renders) "obj1.pkl"))] /\
  forall args' : gmap string string,
    execute (LCToolHandler_get (lib never_renders) cplistfile false
               obj1_token args')
            (begin_request disk project) = o.
Proof.
  apply (tool_dispatch_ignores_parameters (lib never_renders) cplistfile
           false disk project obj1_token "obj1.pkl" ids bls_args).
  - discriminate.
  - reflexivity.
  - reflexivity.
  - apply obj1_listed.
Defined.



Lemma load_missing_file_goes_on_witness :
  let cpfpath := cpfpath_of (lib never_renders) cplistfile
                   (xhtml_escape (lib never_renders) "obj1.pkl") in
  let o := execute (CheckplotHandler_get (lib never_renders) cplistfile
                      false obj1_token)
                   (begin_request manifest_only project) in
  (exists env,
      sent (final o) = Some {| rsp_status := 200; rsp_body := [env] |} /\
      field env "status" = Some (PStr "error") /\
      message_contains "couldn't find" env = true /\
      field env "message" <> Some (PStr "This checkplot doesn't exist.")) /\
  trace (final o) = [EvExists cpfpath; EvSubmit (TRead cpfpath)] /\
  submissions (trace (final o)) = [TRead cpfpath] /\
  fault o = Some (IOError cpfpath).
Proof.
  apply (load_missing_file_goes_on (lib never_renders) cplistfile false
           manifest_only project obj1_token "obj1.pkl" ids).
  - discriminate.
  - reflexivity.
  - reflexivity.
  - apply obj1_listed.
  - reflexivity.
Defined.

Lemma load_unknown_identifier_witness :
  let o := execute (CheckplotHandler_get (lib never_renders) cplistfile
                      false other_token)
                   (begin_request disk_with_stray project) in
  disk_with_stray !! other_path = Some (FPickle record1) /\
  (sent (final o) =
     Some {| rsp_status := 200;
             rsp_body := [envelope "error" "This checkplot doesn't exist."
                                   false PNone] |} /\
   fault o = None /\
   trace (final o) = [] /\
   storage (final o) = disk_with_stray /\
   currentproject (final o) = project).
Proof.
  split; [reflexivity|].
  apply (load_unknown_identifier (lib never_renders) cplistfile false
           disk_with_stray project other_token "other.pkl" ids).
  - discriminate.
  - reflexivity.
  - reflexivity.
  - intros H. apply existsb_is_pystr in H. discriminate H.
Defined.

Lemma missing_file_envelope_lacks_readonly_witness :
  let cpfpath := cpfpath_of (lib never_renders) cplistfile
                   (xhtml_escape (lib never_renders) "obj1.pkl") in
  let o := execute (CheckplotHandler_get (lib never_renders) cplistfile
                      false obj1_token)
                   (begin_request manifest_only project) in
  let t := execute (LCToolHandler_get (lib never_renders) cplistfile false
                      obj1_token bls_args)
                   (begin_request manifest_only project) in
  let env := envelope3 "error" ("couldn't find checkplot " +:+ cpfpath)
                       PNone in
  sent (final o) = Some {| rsp_status := 200; rsp_body := [env] |} /\
  sent (final t) = Some {| rsp_status := 200; rsp_body := [env] |} /\
  has_field env "status" = true /\
  has_field env "message" = true /\
  has_field env "result" = true /\
  has_field env "readonly" = false /\
  has_all_fields env = false.
Proof.
  apply (missing_file_envelope_lacks_readonly (lib never_renders)
           cplistfile false manifest_only project obj1_token "obj1.pkl"
           ids bls_args).
  - discriminate.
  - reflexivity.
  - reflexivity.
  - apply obj1_listed.
  - reflexivity.
Defined.


(** The run above, evaluated: the record of [obj1.pkl] is merged and its
    image lies beside it. *)
Lemma update_of_obj1_keeps_record :
  let o := execute (CheckplotHandler_post (lib renders) cplistfile false
                      obj1_token update_png_args)
                   (begin_request disk project) in
  record_at (storage (final o)) obj1_path = Some record1_merged /\
  storage (final o) !! obj1_png = Some (FRaw "image") /\
  sent (final o) =
    Some {| rsp_status := 200;
            rsp_body := [success_envelope (lib renders) false obj1_path
                           payload (PStr obj1_png)] |}.
Proof. repeat split; vm_compute; reflexivity. Qed.


(** C7 does not hold as stated: an update of [obj1.pkl] with a render requested,
    where the merge succeeds and the renderer raises. The merged record is
    on disk, but the envelope reports an error with status 500, not a
    success with a failure marker. *)
Lemma render_raise_reported_as_error :
  let o := execute (CheckplotHandler_post (lib render_raises) cplistfile
                      false obj1_token update_png_args)
                   (begin_request disk project) in
  render (lib render_raises) record1_merged = RenderRaises /\
  record_at (storage (final o)) obj1_path = Some record1_merged /\
  sent (final o) = Some {| rsp_status := 500;
                           rsp_body := [exception_envelope false] |} /\
  (forall r env, sent (final o) = Some r -> rsp_body r = [env] ->
                 field env "status" <> Some (PStr "success")).
Proof.
  repeat split; try (vm_compute; reflexivity).
  intros r env Hr Hb. vm_compute in Hr. injection Hr as <-.
  simpl in Hb. injection Hb as <-. vm_compute. discriminate.
Qed.

(** The same update where the renderer gives up quietly but an image of an
    earlier render is still on disk: the stale path is reported. *)
Lemma stale_image_hides_render_failure :
  let o := execute (CheckplotHandler_post (lib never_renders) cplistfile
                      false obj1_token update_png_args)
                   (begin_request disk_with_png project) in
  storage (final o) !! obj1_png = Some (FRaw "old image") /\
  sent (final o) =
    Some {| rsp_status := 200;
            rsp_body := [success_envelope (lib never_renders) false
                           obj1_path payload (PStr obj1_png)] |}.
Proof. split; vm_compute; reflexivity. Qed.

Lemma render_failure_keeps_merge_witness :
  let X := lib never_renders in
  let cpfpath := cpfpath_of X cplistfile "obj1.pkl" in
  let o := execute (CheckplotHandler_post X cplistfile false obj1_token
                      update_png_args)
                   (begin_request disk project) in
  let merged :=
    Dict.update record1
      (merge_fields (PDict [(KStr "objectisvar", PInt 1)])
                    (PDict [(KStr "ndet", PInt 2)])
                    (PList [PStr "looks periodic"])) in
  storage (final o) = <[cpfpath := FPickle merged]> disk /\
  record_at (storage (final o)) cpfpath = Some merged /\
  fault o = None /\
  sent (final o) =
    match render X merged with
    | RenderRaises =>
        Some {| rsp_status := 500;
                rsp_body := [exception_envelope false] |}
    | RenderNothing | RenderBlob _ =>
        Some {| rsp_status := 200;
                rsp_body :=
                  [success_envelope X false cpfpath
                     (PDict
                        [(KStr "varinfo", PDict [(KStr "objectisvar", PInt 1)]);
                         (KStr "objectinfo", PDict [(KStr "ndet", PInt 2)]);
                         (KStr "comments", PList [PStr "looks periodic"]);
                         (KStr "status", PStr "hacked")])
                     (match storage (final o) !! cpfpng_of X cpfpath with
                      | Some _ => PStr (cpfpng_of X cpfpath)
                      | None => PStr "png making failed"
                      end)] |}
    end.
Proof.
  intros X cpfpath o merged.
  apply (render_failure_keeps_merge X cplistfile disk project obj1_token
           "obj1.pkl" payload_text "true" update_png_args
           [(KStr "varinfo", PDict [(KStr "objectisvar", PInt 1)]);
            (KStr "objectinfo", PDict [(KStr "ndet", PInt 2)]);
            (KStr "comments", PList [PStr "looks periodic"]);
            (KStr "status", PStr "hacked")]
           record1 (PDict [(KStr "objectisvar", PInt 1)])
           (PDict [(KStr "ndet", PInt 2)]) (PList [PStr "looks periodic"])).
  - reflexivity.
  - discriminate.
  - reflexivity.
  - vm_compute. discriminate.
  - vm_compute. reflexivity.
  - reflexivity.
  - reflexivity.
  - reflexivity.
  - reflexivity.
  - reflexivity.
  - reflexivity.
  - discriminate.
  - reflexivity.
Defined.

(** The run above, evaluated: the quiet failure of the render is flagged
    and the merged record is on disk. *)
Lemma quiet_render_failure_is_flagged :
  let o := execute (CheckplotHandler_post (lib never_renders) cplistfile
                      false obj1_token update_png_args)
                   (begin_request disk project) in
  record_at (storage (final o)) obj1_path = Some record1_merged /\
  storage (final o) !! obj1_png = None /\
  sent (final o) =
    Some {| rsp_status := 200;
            rsp_body := [success_envelope (lib never_renders) false
                           obj1_path payload (PStr "png making failed")] |}.
Proof. repeat split; vm_compute; reflexivity. Qed.

(** C8 does not hold as stated: with the server read-only, an update whose
    payload is the empty object. The answer is the 400 read-only envelope,
    not a 500 envelope, and the exception raised while answering a second
    time leaves the handler. *)
Lemma missing_key_when_readonly :
  let o := execute (CheckplotHandler_post (lib never_renders) cplistfile
                      true obj1_token empty_payload_args)
                   (begin_request disk project) in
  (empty_payload_args !! "cpcontents") ≫= Lib.json_loads
    = Some (PDict []) /\
  has_update_keys (PDict []) = false /\
  sent (final o) =
    Some {| rsp_status := 400;
            rsp_body := [envelope "error" readonly_message true PNone] |} /\
  (forall r, sent (final o) = Some r -> rsp_status r <> 500) /\
  fault o = Some (RuntimeError "Cannot write() after finish()").
Proof.
  repeat split; try (vm_compute; reflexivity).
  intros r Hr. vm_compute in Hr. injection Hr as <-. simpl. discriminate.
Qed.

Lemma update_missing_key_is_500_witness :
  let o := execute (CheckplotHandler_post (lib never_renders) cplistfile
                      false obj1_token empty_payload_args)
                   (begin_request disk project) in
  (exists s' e, post_try (lib never_renders) cplistfile false obj1_token
                  empty_payload_args (begin_request disk project)
                = (s', Raise e)) /\
  sent (final o) = Some {| rsp_status := 500;
                           rsp_body := [exception_envelope false] |} /\
  fault o = None /\
  submissions (trace (final o)) = [] /\
  storage (final o) = disk.
Proof.
  apply (update_missing_key_is_500 (lib never_renders) cplistfile disk
           project obj1_token "obj1.pkl" "{}" empty_payload_args
           (PDict [])).
  - reflexivity.
  - discriminate.
  - reflexivity.
  - discriminate.
  - reflexivity.
  - reflexivity.
Defined.

End Runs.

(** ** Writing what JSON decoding produced

    [write_json_derived] is [write] on the chunks [write] accepts, and
    what [json.loads] returns is accepted: an update's success envelope
    goes through [write] unharmed. *)

Lemma write_json_derived_agrees (chunk : pyval) :
  write_accepts chunk = true -> write chunk = write_json_derived chunk.
Proof. intros H. unfold write, write_json_derived. now rewrite H. Qed.

Lemma dict_set_encodable (k : pykey) (v : pyval) (d : pydict) :
  json_encodable v = true ->
  forallb (fun kv => json_encodable (snd kv)) d = true ->
  forallb (fun kv => json_encodable (snd kv)) (Dict.set k v d) = true.
Proof.
  intros Hv. induction d as [|[k' v'] d IH]; simpl; intros Hd.
  - now rewrite Hv.
  - apply andb_true_iff in Hd as [Hv' Hd].
    destruct (decide (k = k')); simpl.
    + now rewrite Hv, Hd.
    + now rewrite Hv', IH.
Qed.

(** Case analysis along the parser, down to its answers. *)
Ltac parser_cases H :=
  repeat match type of H with
         | match ?x with _ => _ end = _ =>
             destruct x eqn:?; try discriminate
         | (if ?x then _ else _) = _ =>
             destruct x eqn:?; try discriminate
         | (let (_, _) := ?x in _) = _ =>
             destruct x eqn:?; try discriminate
         | Some _ = Some _ => injection H as <- <-
         end.

Lemma json_value_encodable (fuel : nat) :
  (forall l v rest,
      Lib.json_value fuel l = Some (v, rest) -> json_encodable v = true) /\
  (forall l acc v rest,
      Lib.json_members fuel l acc = Some (v, rest) ->
      forallb (fun kv => json_encodable (snd kv)) acc = true ->
      json_encodable v = true) /\
  (forall l acc v rest,
      Lib.json_items fuel l acc = Some (v, rest) ->
      forallb json_encodable acc = true ->
      json_encodable v = true).
Proof.
  induction fuel as [|fuel (IHv & IHm & IHi)].
  - repeat split; intros; discriminate.
  - repeat split.
    + intros l v rest H. cbn [Lib.json_value] in H.
      parser_cases H; try reflexivity; eauto.
    + intros l acc v rest H Hacc. cbn [Lib.json_members] in H.
      parser_cases H; eauto using dict_set_encodable.
    + intros l acc v rest H Hacc. cbn [Lib.json_items] in H.
      parser_cases H.
      * simpl. rewrite forallb_app. simpl.
        erewrite IHv by eassumption. rewrite andb_true_r.
        apply forallb_forall. intros x Hx. apply in_rev in Hx.
        revert x Hx. now apply forallb_forall.
      * eapply IHi; [eassumption|]. simpl.
        erewrite IHv by eassumption. exact Hacc.
Qed.

Lemma json_loads_encodable (text : string) (v : pyval) :
  Lib.json_loads text = Some v -> json_encodable v = true.
Proof.
  unfold Lib.json_loads. intros H.
  destruct (Lib.json_value _ _) as [[v' rest]|] eqn:Hv; [|discriminate].
  destruct (Lib.skip_ws rest); [|discriminate].
  injection H as <-.
  exact (proj1 (json_value_encodable _) _ _ _ Hv).
Qed.

Lemma success_envelope_accepted (X : externals) (readonly : bool)
    (cpfpath : string) (changes cpfpng : pyval) :
  json_encodable changes = true ->
  json_encodable cpfpng = true ->
  write (success_envelope X readonly cpfpath changes cpfpng) =
  write_json_derived (success_envelope X readonly cpfpath changes cpfpng).
Proof.
  intros Hc Hp. apply write_json_derived_agrees.
  unfold success_envelope, envelope. simpl. now rewrite Hc, Hp.
Qed.

(** * Further properties of the handlers *)

(** ** Handlers that only read *)

Lemma read_only_ret {A} (a : A) : read_only (ret a).
Proof. intros s. simpl. repeat split. exists []. now rewrite app_nil_r. Qed.

Lemma read_only_raise {A} (e : exn) : read_only (@raise A e).
Proof. intros s. simpl. repeat split. exists []. now rewrite app_nil_r. Qed.

Lemma read_only_lift {A} (r : result A) : read_only (lift r).
Proof. intros s. simpl. repeat split. exists []. now rewrite app_nil_r. Qed.

Lemma read_only_bind {A B} (m : M A) (k : A -> M B) :
  read_only m -> (forall a, read_only (k a)) -> read_only (bind m k).
Proof.
  intros Hm Hk s. unfold bind.
  destruct (Hm s) as (Hs & Hp & evs & Ht & Hev).
  destruct (m s) as [s1 [a|e]]; simpl in *.
  - destruct (Hk a s1) as (Hs' & Hp' & evs' & Ht' & Hev').
    split; [congruence|]. split; [congruence|].
    exists (evs ++ evs')%list. split.
    + rewrite Ht', Ht. now rewrite app_assoc.
    + rewrite forallb_app, Hev, Hev'. reflexivity.
  - split; [exact Hs|]. split; [exact Hp|]. now exists evs.
Qed.

Lemma read_only_write (chunk : pyval) : read_only (write chunk).
Proof.
  intros s. unfold write.
  destruct (finished s); [|destruct (write_accepts chunk)]; simpl;
    repeat split; exists []; now rewrite app_nil_r.
Qed.

Lemma read_only_write_json_derived (chunk : pyval) :
  read_only (write_json_derived chunk).
Proof.
  intros s. unfold write_json_derived. destruct (finished s); simpl;
    repeat split; exists []; now rewrite app_nil_r.
Qed.

Lemma read_only_finish : read_only finish.
Proof.
  intros s. unfold finish. destruct (finished s); simpl;
    repeat split; exists []; now rewrite app_nil_r.
Qed.

Lemma read_only_when (b : bool) (m : M unit) :
  read_only m -> read_only (when b m).
Proof. intros Hm. destruct b; [exact Hm|apply read_only_ret]. Qed.

Lemma read_only_exists (p : string) : read_only (os_path_exists p).
Proof. intros s. simpl. repeat split. now exists [EvExists p]. Qed.

Lemma read_only_get_currentproject : read_only get_currentproject.
Proof. intros s. simpl. repeat split. exists []. now rewrite app_nil_r. Qed.

Lemma read_only_set_self_cpfile (n : option string) :
  read_only (modify (set_self_cpfile n)).
Proof. intros s. simpl. repeat split. exists []. now rewrite app_nil_r. Qed.

Lemma read_only_submit_read (p : string) :
  read_only (executor_submit (TRead p)
               (fun fs => _read_checkplot_picklefile fs p)).
Proof.
  intros s. unfold executor_submit, _read_checkplot_picklefile.
  destruct (storage s !! p) as [[]|]; simpl; repeat split;
    now exists [EvSubmit (TRead p)].
Qed.

(** Applies the closure lemmas as far as they go. *)
Ltac read_only_with known :=
  repeat first
    [ known
    | apply read_only_ret | apply read_only_raise | apply read_only_lift
    | apply read_only_write | apply read_only_write_json_derived
    | apply read_only_finish
    | apply read_only_exists | apply read_only_get_currentproject
    | apply read_only_set_self_cpfile | apply read_only_submit_read
    | apply read_only_when
    | apply read_only_bind; [|intros ?] ].

Ltac read_only_steps := read_only_with fail.

Lemma read_only_periodogram_result (X : externals) (cpdict : pydict)
    (key : string) :
  read_only (periodogram_result X cpdict key).
Proof.
  unfold periodogram_result, phasedlc, phasedlc_plot, phasedlc_float,
    getk, geti.
  read_only_steps.
Qed.

Lemma read_only_add_periodograms (X : externals) (cpdict : pydict)
    (keys : list string) :
  forall res, read_only (add_periodograms X cpdict keys res).
Proof.
  induction keys as [|key keys IH]; intros res; simpl.
  - apply read_only_ret.
  - destruct (Dict.has (KStr key) cpdict); [|apply IH].
    apply read_only_bind; [apply read_only_periodogram_result|].
    intros r. apply IH.
Qed.

Lemma read_only_load_result (X : externals) (cpdict : pydict) :
  read_only (load_result X cpdict).
Proof.
  unfold load_result, getk.
  read_only_with ltac:(apply read_only_add_periodograms).
Qed.

Lemma read_only_CheckplotHandler_get (X : externals) (cplistfile : string)
    (readonly : bool) (token : string) :
  read_only (CheckplotHandler_get X cplistfile readonly token).
Proof.
  unfold CheckplotHandler_get, getk.
  destruct (truthy_str token); [|apply read_only_write].
  destruct (b64decode X token); [|apply read_only_raise].
  read_only_steps.
  match goal with |- read_only (if ?b then _ else _) => destruct b end;
    read_only_with ltac:(apply read_only_load_result).
Qed.

Lemma read_only_LCToolHandler_get (X : externals) (cplistfile : string)
    (readonly : bool) (token : string) (args : gmap string string) :
  read_only (LCToolHandler_get X cplistfile readonly token args).
Proof.
  unfold LCToolHandler_get, getk.
  destruct (truthy_str token); [|apply read_only_write].
  destruct (b64decode X token); [|apply read_only_raise].
  read_only_steps.
  match goal with |- read_only (if ?b then _ else _) => destruct b end;
    read_only_steps.
Qed.

Lemma read_only_execute (h : M unit) (s : state) :
  read_only h ->
  storage (final (execute h s)) = storage s /\
  currentproject (final (execute h s)) = currentproject s /\
  exists evs, trace (final (execute h s)) = (trace s ++ evs)%list /\
              forallb is_read_event evs = true.
Proof.
  intros Hh. unfold execute.
  destruct (Hh s) as (Hs & Hp & evs & Ht & Hev).
  destruct (h s) as [s' [[]|e]]; simpl in *.
  - unfold finish. destruct (finished s'); simpl; eauto.
  - eauto.
Qed.

Lemma submissions_read_events (evs : list event) :
  forallb is_read_event evs = true ->
  forall t, t ∈ submissions evs -> exists p, t = TRead p.
Proof.
  induction evs as [|e evs IH]; simpl; intros Hev t Ht.
  - inversion Ht.
  - apply andb_true_iff in Hev as [He Hev].
    destruct e as [p|[p|p u|a b]|p]; simpl in *; try discriminate;
      try (apply IH; assumption).
    apply elem_of_cons in Ht as [->|Ht]; [now exists p|now apply IH].
Qed.

(** X1: a load never writes. Whatever the request, the file system and the
    shared project are the same after it as before, and every task it hands
    to the pool is the read of a record. *)
Theorem load_never_writes (X : externals) (cplistfile : string)
    (readonly : bool) (token : string)
    (fs : gmap string file) (project : pydict) :
  let o := execute (CheckplotHandler_get X cplistfile readonly token)
                   (begin_request fs project) in
  storage (final o) = fs /\
  currentproject (final o) = project /\
  forall t, t ∈ submissions (trace (final o)) -> exists p, t = TRead p.
Proof.
  intros o.
  destruct (read_only_execute _ (begin_request fs project)
              (read_only_CheckplotHandler_get X cplistfile readonly token))
    as (Hs & Hp & evs & Ht & Hev).
  split; [exact Hs|]. split; [exact Hp|].
  unfold o. rewrite Ht. simpl. now apply submissions_read_events.
Qed.

(** X2: a tool dispatch never writes either: storage and the shared project
    are untouched whatever the request and its parameters, and the only
    task it can hand to the pool is the read of a record. *)
Theorem tool_dispatch_never_writes (X : externals) (cplistfile : string)
    (readonly : bool) (token : string) (args : gmap string string)
    (fs : gmap string file) (project : pydict) :
  let o := execute (LCToolHandler_get X cplistfile readonly token args)
                   (begin_request fs project) in
  storage (final o) = fs /\
  currentproject (final o) = project /\
  forall t, t ∈ submissions (trace (final o)) -> exists p, t = TRead p.
Proof.
  intros o.
  destruct (read_only_execute _ (begin_request fs project)
              (read_only_LCToolHandler_get X cplistfile readonly token args))
    as (Hs & Hp & evs & Ht & Hev).
  split; [exact Hs|]. split; [exact Hp|].
  unfold o. rewrite Ht. simpl. now apply submissions_read_events.
Qed.

(** ** What a load answers *)

Lemma dict_has_keys (k : pykey) (d : pydict) :
  Dict.has k d = bool_decide (k ∈ map fst d).
Proof.
  unfold Dict.has. induction d as [|[k' v] d IH]; simpl.
  - reflexivity.
  - destruct (decide (k = k')) as [->|Hne].
    + symmetry. apply bool_decide_eq_true_2. apply elem_of_cons. now left.
    + rewrite IH. apply bool_decide_ext. rewrite elem_of_cons. tauto.
Qed.

Lemma dict_has_set_other (k k' : pykey) (v : pyval) (d : pydict) :
  Dict.has k (Dict.set k' v d) = bool_decide (k = k') || Dict.has k d.
Proof.
  unfold Dict.has. destruct (decide (k = k')) as [->|Hne].
  - rewrite dict_get_set_eq. now rewrite bool_decide_eq_true_2.
  - rewrite dict_get_set_ne by congruence.
    now rewrite bool_decide_eq_false_2.
Qed.

Lemma add_periodograms_keys (X : externals) (cpdict : pydict)
    (keys : list string) :
  forall (res : pydict) (s s' : state) (res' : pydict),
    add_periodograms X cpdict keys res s = (s', Ok res') ->
    forall k, Dict.has k res' =
              Dict.has k res ||
              (bool_decide (k ∈ map KStr keys) && Dict.has k cpdict).
Proof.
  induction keys as [|key keys IH]; intros res s s' res' Hrun k;
    cbn [add_periodograms map] in *.
  - injection Hrun as _ <-.
    rewrite bool_decide_eq_false_2 by apply not_elem_of_nil.
    now rewrite orb_false_r.
  - destruct (Dict.has (KStr key) cpdict) eqn:Hkey.
    + unfold bind in Hrun.
      destruct (periodogram_result X cpdict key s) as [s1 [r|e]];
        [|discriminate].
      rewrite (IH _ _ _ _ Hrun k), dict_has_set_other.
      destruct (decide (k = KStr key)) as [->|Hne].
      * rewrite Hkey.
        rewrite (bool_decide_eq_true_2 (KStr key ∈ KStr key :: map KStr keys))
          by (apply elem_of_cons; now left).
        rewrite (bool_decide_eq_true_2 (KStr key = KStr key)) by reflexivity.
        simpl. now rewrite orb_true_r.
      * rewrite (bool_decide_eq_false_2 (k = KStr key)) by exact Hne.
        simpl. f_equal. f_equal. apply bool_decide_ext.
        rewrite elem_of_cons. tauto.
    + rewrite (IH _ _ _ _ Hrun k). f_equal.
      destruct (decide (k = KStr key)) as [->|Hne].
      * rewrite Hkey. now rewrite !andb_false_r.
      * f_equal. apply bool_decide_ext. rewrite elem_of_cons. tauto.
Qed.

(** The assembly of the result works on the record alone: it leaves the
    whole state of the handler as it is. *)
Lemma bind_state_kept {A B} (m : M A) (k : A -> M B) :
  (forall s, fst (m s) = s) -> (forall a s, fst (k a s) = s) ->
  forall s, fst (bind m k s) = s.
Proof.
  intros Hm Hk s. unfold bind. specialize (Hm s).
  destruct (m s) as [s1 [a|e]]; simpl in *; subst; [apply Hk|reflexivity].
Qed.

Ltac state_kept_with known :=
  repeat first
    [ known
    | intros ?; reflexivity
    | apply bind_state_kept; [|intros ?] ].

Lemma periodogram_result_state (X : externals) (cpdict : pydict)
    (key : string) :
  forall s, fst (periodogram_result X cpdict key s) = s.
Proof.
  unfold periodogram_result, phasedlc, phasedlc_plot, phasedlc_float,
    getk, geti.
  state_kept_with fail.
Qed.

Lemma add_periodograms_state (X : externals) (cpdict : pydict)
    (keys : list string) :
  forall res s, fst (add_periodograms X cpdict keys res s) = s.
Proof.
  induction keys as [|key keys IH]; intros res; simpl.
  - reflexivity.
  - destruct (Dict.has (KStr key) cpdict); [|apply IH].
    apply bind_state_kept; [apply periodogram_result_state|].
    intros r. apply IH.
Qed.

Lemma load_result_state (X : externals) (cpdict : pydict) :
  forall s, fst (load_result X cpdict s) = s.
Proof.
  unfold load_result, getk.
  state_kept_with ltac:(apply add_periodograms_state).
Qed.

Lemma load_result_keys (X : externals) (cpdict : pydict) (s s' : state)
    (res : pydict) :
  load_result X cpdict s = (s', Ok res) ->
  forall k, Dict.has k res =
            bool_decide (k ∈ map KStr result_keys) ||
            (bool_decide (k ∈ map KStr pkl_keys) && Dict.has k cpdict).
Proof.
  unfold load_result, getk, bind, lift. intros Hrun k.
  repeat match type of Hrun with
         | context [py_getitem ?v ?key] =>
             destruct (py_getitem v key); [|discriminate]
         | context [decode_if_bytes ?v] =>
             destruct (decode_if_bytes v); [|discriminate]
         | context [py_size ?v] => destruct (py_size v); [|discriminate]
         end.
  rewrite (add_periodograms_keys _ _ _ _ _ _ _ Hrun k).
  f_equal. apply dict_has_keys.
Qed.

Section LoadAnswers.

Variable X : externals.
Variable cplistfile : string.
Variable readonly : bool.

(** X3: the load of a listed record that is on disk, has the required
    fields, whose images decode as text and which carries no periodogram.
    The result holds the record's fields: the comments are [None] when the
    record has none, images held as bytes are sent as text, and the number
    of detections is the length of the time series. When JSON can encode
    that result the answer is the [ok] envelope around it; when it cannot
    (a field of the record holds bytes or a numpy value) the write raises
    [TypeError], which leaves the handler with nothing written or sent.
    Either way one existence test and one read in the pool are all the
    storage sees. *)
Theorem load_answers_record
    (fs : gmap string file) (project cpdict : pydict)
    (token raw : string) (ids times : list pyval)
    (objectid objectinfo varinfo finderchart magseries plot status : pyval)
    (chart series : pyval) :
  let name := xhtml_escape X raw in
  let cpfpath := cpfpath_of X cplistfile name in
  token <> "" ->
  b64decode X token = Some raw ->
  Dict.get (KStr "checkplots") project = Some (PList ids) ->
  PStr name ∈ ids ->
  fs !! cpfpath = Some (FPickle cpdict) ->
  Dict.get (KStr "objectid") cpdict = Some objectid ->
  Dict.get (KStr "objectinfo") cpdict = Some objectinfo ->
  Dict.get (KStr "varinfo") cpdict = Some varinfo ->
  Dict.get (KStr "finderchart") cpdict = Some finderchart ->
  Dict.get (KStr "magseries") cpdict = Some magseries ->
  py_getitem magseries (KStr "plot") = Ok plot ->
  py_getitem magseries (KStr "times") = Ok (PArray times) ->
  Dict.get (KStr "status") cpdict = Some status ->
  decode_if_bytes finderchart = Ok chart ->
  decode_if_bytes plot = Ok series ->
  forallb (fun k => negb (Dict.has (KStr k) cpdict)) pkl_keys = true ->
  let result :=
    PDict [(KStr "objectid", objectid);
           (KStr "objectinfo", objectinfo);
           (KStr "objectcomments",
              default PNone (Dict.get (KStr "comments") cpdict));
           (KStr "varinfo", varinfo);
           (KStr "finderchart", chart);
           (KStr "magseries", series);
           (KStr "magseries_ndet", PInt (Z.of_nat (length times)));
           (KStr "cpstatus", status)] in
  let o := execute (CheckplotHandler_get X cplistfile readonly token)
                   (begin_request fs project) in
  (if json_encodable result
   then sent (final o) =
          Some {| rsp_status := 200;
                  rsp_body := [envelope "ok" ("found checkplot " +:+ name)
                                 readonly result] |} /\
        fault o = None
   else sent (final o) = None /\
        write_buffer (final o) = [] /\
        fault o = Some TypeError) /\
  trace (final o) = [EvExists cpfpath; EvSubmit (TRead cpfpath)].
Proof.
  intros name cpfpath Htok Hdec Hcps Hin Hfile Hoid Hoi Hvi Hfc Hms Hplot
    Htimes Hst Hchart Hseries Hnone result.
  apply existsb_is_pystr in Hin.
  simpl in Hnone. rewrite !andb_true_iff, !negb_true_iff in Hnone.
  destruct Hnone as (Hpdm & Haov & Hbls & Hgls & Hsls & _).
  run_handler. rewrite (truthy_str_true _ Htok), Hdec. simpl.
  rewrite Hcps. simpl. fold name. rewrite Hin. simpl.
  fold cpfpath. unfold _read_checkplot_picklefile.
  repeat (rewrite Hfile; simpl).
  unfold load_result, getk, bind, lift. simpl.
  rewrite Hoid, Hoi, Hvi, Hfc, Hms, Hplot, Hst, Htimes, Hchart, Hseries.
  simpl.
  rewrite Hpdm, Haov, Hbls, Hgls, Hsls. simpl.
  rewrite !andb_true_r.
  destruct (Dict.get (KStr "comments") cpdict); simpl;
    match goal with |- (if ?b then _ else _) /\ _ => destruct b end;
    simpl; repeat split.
Qed.

(** X4: the load of a listed record that is on disk but lacks one of the
    fields [objectid], [objectinfo], [varinfo], [finderchart], [magseries],
    [status] is not answered by the handler: the lookup raises, the
    exception leaves the handler and nothing has been written. *)
Theorem load_incomplete_record_faults
    (fs : gmap string file) (project cpdict : pydict)
    (token raw : string) (ids : list pyval) :
  let name := xhtml_escape X raw in
  let cpfpath := cpfpath_of X cplistfile name in
  token <> "" ->
  b64decode X token = Some raw ->
  Dict.get (KStr "checkplots") project = Some (PList ids) ->
  PStr name ∈ ids ->
  fs !! cpfpath = Some (FPickle cpdict) ->
  forallb (fun k => Dict.has (KStr k) cpdict) required_keys = false ->
  let o := execute (CheckplotHandler_get X cplistfile readonly token)
                   (begin_request fs project) in
  fault o <> None /\
  sent (final o) = None /\
  write_buffer (final o) = [].
Proof.
  intros name cpfpath Htok Hdec Hcps Hin Hfile Hreq.
  apply existsb_is_pystr in Hin.
  unfold required_keys, Dict.has in Hreq. simpl in Hreq.
  run_handler. rewrite (truthy_str_true _ Htok), Hdec. simpl.
  rewrite Hcps. simpl. fold name. rewrite Hin. simpl.
  fold cpfpath. unfold _read_checkplot_picklefile.
  repeat (rewrite Hfile; simpl).
  unfold load_result, getk, bind, lift. simpl.
  destruct (Dict.get (KStr "objectid") cpdict); simpl in *;
    [|repeat split; discriminate].
  destruct (Dict.get (KStr "objectinfo") cpdict); simpl in *;
    [|repeat split; discriminate].
  destruct (Dict.get (KStr "varinfo") cpdict); simpl in *;
    [|repeat split; discriminate].
  destruct (Dict.get (KStr "finderchart") cpdict) as [fc|]; simpl in *;
    [|repeat split; discriminate].
  destruct (Dict.get (KStr "magseries") cpdict) as [ms|]; simpl in *;
    [|repeat split; discriminate].
  destruct (py_getitem ms (KStr "plot")) as [pl|]; simpl;
    [|repeat split; discriminate].
  destruct (decode_if_bytes fc); simpl; [|repeat split; discriminate].
  destruct (decode_if_bytes pl); simpl; [|repeat split; discriminate].
  destruct (Dict.get (KStr "status") cpdict); simpl in *; [discriminate|].
  repeat split; discriminate.
Qed.

(** X5: when the load of a listed record succeeds, the result of its
    envelope holds the eight fixed fields and, of the five periodogram
    methods [pdm], [aov], [bls], [gls], [sls], exactly those the record on
    disk has; it holds no other key. *)
Theorem load_result_has_record_methods
    (fs : gmap string file) (project cpdict : pydict)
    (token raw : string) (ids : list pyval) :
  let name := xhtml_escape X raw in
  let cpfpath := cpfpath_of X cplistfile name in
  token <> "" ->
  b64decode X token = Some raw ->
  Dict.get (KStr "checkplots") project = Some (PList ids) ->
  PStr name ∈ ids ->
  fs !! cpfpath = Some (FPickle cpdict) ->
  let o := execute (CheckplotHandler_get X cplistfile readonly token)
                   (begin_request fs project) in
  fault o = None ->
  exists res : pydict,
    sent (final o) =
      Some {| rsp_status := 200;
              rsp_body := [envelope "ok" ("found checkplot " +:+ name)
                             readonly (PDict res)] |} /\
    forall k, Dict.has k res =
              bool_decide (k ∈ map KStr result_keys) ||
              (bool_decide (k ∈ map KStr pkl_keys) && Dict.has k cpdict).
Proof.
  intros name cpfpath Htok Hdec Hcps Hin Hfile.
  apply existsb_is_pystr in Hin.
  run_handler. rewrite (truthy_str_true _ Htok), Hdec. simpl.
  rewrite Hcps. simpl. fold name. rewrite Hin. simpl.
  fold cpfpath. unfold _read_checkplot_picklefile.
  repeat (rewrite Hfile; simpl).
  match goal with
  | |- context [load_result X cpdict ?s] =>
      pose proof (load_result_keys X cpdict s) as Hkeys;
      pose proof (load_result_state X cpdict s) as Hstate;
      destruct (load_result X cpdict s) as [s1 [res|e]]
  end; simpl in *; [|discriminate].
  subst s1. simpl.
  match goal with
  | |- context [if ?b then _ else _] => destruct b
  end; simpl; [|discriminate].
  intros _. exists res.
  split; [reflexivity|exact (Hkeys _ res eq_refl)].
Qed.

End LoadAnswers.

(** ** What a tool dispatch answers *)

Section ToolAnswers.

Variable X : externals.
Variable cplistfile : string.
Variable readonly : bool.

(** X6: a tool dispatch whose identifier is not in the project manifest is
    answered like a load of it: the envelope ["This checkplot doesn't
    exist."] with the four fields, and storage is not looked at, whatever
    the tool parameters. *)
Theorem tool_dispatch_unknown_identifier
    (fs : gmap string file) (project : pydict)
    (token raw : string) (ids : list pyval) (args : gmap string string) :
  token <> "" ->
  b64decode X token = Some raw ->
  Dict.get (KStr "checkplots") project = Some (PList ids) ->
  PStr (xhtml_escape X raw) ∉ ids ->
  let o := execute (LCToolHandler_get X cplistfile readonly token args)
                   (begin_request fs project) in
  sent (final o) =
    Some {| rsp_status := 200;
            rsp_body := [envelope "error" "This checkplot doesn't exist."
                                  readonly PNone] |} /\
  fault o = None /\
  trace (final o) = [].
Proof.
  intros Htok Hdec Hcps Hnot.
  assert (Hno : existsb (is_pystr (xhtml_escape X raw)) ids = false).
  { destruct (existsb _ ids) eqn:E; [|reflexivity].
    apply existsb_is_pystr in E. contradiction. }
  run_handler. rewrite (truthy_str_true _ Htok), Hdec. simpl.
  rewrite Hcps. simpl. rewrite Hno. simpl.
  repeat split.
Qed.

(** X7: a tool dispatch on a listed record that is on disk reads the record
    in the pool and answers nothing: the response is finished with status
    200 and an empty body, whatever tool and parameters were asked for. *)
Theorem tool_dispatch_answers_nothing
    (fs : gmap string file) (project cpdict : pydict)
    (token raw : string) (ids : list pyval) (args : gmap string string) :
  let cpfpath := cpfpath_of X cplistfile (xhtml_escape X raw) in
  token <> "" ->
  b64decode X token = Some raw ->
  Dict.get (KStr "checkplots") project = Some (PList ids) ->
  PStr (xhtml_escape X raw) ∈ ids ->
  fs !! cpfpath = Some (FPickle cpdict) ->
  let o := execute (LCToolHandler_get X cplistfile readonly token args)
                   (begin_request fs project) in
  sent (final o) = Some {| rsp_status := 200; rsp_body := [] |} /\
  fault o = None /\
  trace (final o) = [EvExists cpfpath; EvSubmit (TRead cpfpath)].
Proof.
  intros cpfpath Htok Hdec Hcps Hin Hfile.
  apply existsb_is_pystr in Hin.
  run_handler. rewrite (truthy_str_true _ Htok), Hdec. simpl.
  rewrite Hcps. simpl. rewrite Hin. simpl.
  fold cpfpath. unfold _read_checkplot_picklefile.
  repeat (rewrite Hfile; simpl).
  repeat split.
Qed.

End ToolAnswers.

(** ** More on updates *)

Lemma project_blind_ret {A} (a : A) : project_blind (ret a).
Proof. intros s p. reflexivity. Qed.

Lemma project_blind_raise {A} (e : exn) : project_blind (@raise A e).
Proof. intros s p. reflexivity. Qed.

Lemma project_blind_lift {A} (r : result A) : project_blind (lift r).
Proof. intros s p. reflexivity. Qed.

Lemma project_blind_bind {A B} (m : M A) (k : A -> M B) :
  project_blind m -> (forall a, project_blind (k a)) ->
  project_blind (bind m k).
Proof.
  intros Hm Hk s p. unfold bind. rewrite (Hm s p).
  destruct (m s) as [s1 [a|e]]; simpl; [apply Hk|reflexivity].
Qed.

Lemma project_blind_try {A} (m : M A) (h : exn -> M A) :
  project_blind m -> (forall e, project_blind (h e)) ->
  project_blind (try_except m h).
Proof.
  intros Hm Hh s p. unfold try_except. rewrite (Hm s p).
  destruct (m s) as [s1 [a|e]]; simpl; [reflexivity|apply Hh].
Qed.

Lemma project_blind_write (chunk : pyval) : project_blind (write chunk).
Proof.
  intros s p. unfold write, finished. simpl.
  destruct (sent s); [reflexivity|]. now destruct (write_accepts chunk).
Qed.

Lemma project_blind_write_json_derived (chunk : pyval) :
  project_blind (write_json_derived chunk).
Proof.
  intros s p. unfold write_json_derived, finished. simpl.
  now destruct (sent s).
Qed.

Lemma project_blind_finish : project_blind finish.
Proof. intros s p. unfold finish, finished. simpl. now destruct (sent s). Qed.

Lemma project_blind_set_status (c : Z) : project_blind (set_status c).
Proof. intros s p. reflexivity. Qed.

Lemma project_blind_set_self_cpfile (n : option string) :
  project_blind (modify (set_self_cpfile n)).
Proof. intros s p. reflexivity. Qed.

Lemma project_blind_when (b : bool) (m : M unit) :
  project_blind m -> project_blind (when b m).
Proof. intros Hm. destruct b; [exact Hm|apply project_blind_ret]. Qed.

Lemma project_blind_exists (path : string) :
  project_blind (os_path_exists path).
Proof. intros s p. reflexivity. Qed.

Lemma project_blind_submit {A} (t : task)
    (run : gmap string file -> gmap string file * result A) :
  project_blind (executor_submit t run).
Proof.
  intros s p. unfold executor_submit. simpl.
  now destruct (run (storage s)).
Qed.

Ltac project_blind_steps :=
  repeat first
    [ apply project_blind_ret | apply project_blind_raise
    | apply project_blind_lift | apply project_blind_write
    | apply project_blind_write_json_derived
    | apply project_blind_finish | apply project_blind_set_status
    | apply project_blind_set_self_cpfile | apply project_blind_exists
    | apply project_blind_submit | apply project_blind_when
    | apply project_blind_bind; [|intros ?] ].

Lemma project_blind_post (X : externals) (cplistfile : string)
    (readonly : bool) (token : string) (args : gmap string string) :
  project_blind (CheckplotHandler_post X cplistfile readonly token args).
Proof.
  unfold CheckplotHandler_post, readonly_guard.
  apply project_blind_bind; [project_blind_steps|intros _].
  apply project_blind_try.
  - unfold post_try, py_json_loads, getk.
    destruct (b64decode X token); [|apply project_blind_raise].
    project_blind_steps.
    + destruct (get_argument args "cpcontents") as [t|];
        [|apply project_blind_raise].
      destruct (json_loads X t); project_blind_steps.
    + match goal with |- project_blind (if ?b then _ else _) => destruct b end;
        project_blind_steps.
      match goal with |- project_blind (if ?b then _ else _) => destruct b end;
        project_blind_steps.
  - intros e s p.
    unfold post_except, bind, get_state, set_status, write, finish, finished.
    destruct s as [st pr sc wb [r|] [n|] tr]; reflexivity.
Qed.

Section MoreUpdates.

Variable X : externals.
Variable cplistfile : string.

(** X8: an update never consults the project manifest. Storage, response,
    pool tasks and escaping exception are the same whatever the shared
    project holds, so an identifier the manifest does not list is updated
    like a listed one; the shared project itself is left as it was. *)
Theorem update_ignores_manifest
    (readonly : bool) (token : string) (args : gmap string string)
    (fs : gmap string file) (project project' : pydict) :
  let o := execute (CheckplotHandler_post X cplistfile readonly token args)
                   (begin_request fs project) in
  let o' := execute (CheckplotHandler_post X cplistfile readonly token args)
                    (begin_request fs project') in
  storage (final o') = storage (final o) /\
  sent (final o') = sent (final o) /\
  trace (final o') = trace (final o) /\
  fault o' = fault o /\
  currentproject (final o) = project.
Proof.
  intros o o'.
  pose proof (project_blind_post X cplistfile readonly token args) as Hb.
  assert (Hrun : forall p,
             execute (CheckplotHandler_post X cplistfile readonly token args)
                     (begin_request fs p)
             = {| final := set_currentproject p (final o); fault := fault o |}).
  { intros p. unfold o, execute.
    change (begin_request fs p)
      with (set_currentproject p (begin_request fs project)).
    rewrite (Hb (begin_request fs project) p).
    destruct (CheckplotHandler_post X cplistfile readonly token args
                (begin_request fs project)) as [s1 [[]|e]]; simpl;
      [|reflexivity].
    unfold finished, finish, finished. simpl. now destruct (sent s1). }
  unfold o'. rewrite (Hrun project'). simpl.
  repeat split.
  pose proof (Hrun project) as Hp. fold o in Hp.
  apply (f_equal (fun x => currentproject (final x))) in Hp.
  simpl in Hp. exact Hp.
Qed.

(** X9: an update without payload (no [cpcontents] argument, or an empty
    one) is answered with status 400 and the envelope ["did not receive a
    checkplot update payload"]; nothing is handed to the pool and storage
    is untouched. The handler does not stop at the answer: parsing the
    absent payload raises, and the second answer attempted by the [except]
    clause leaves the handler as a [RuntimeError]. *)
Theorem update_without_payload
    (fs : gmap string file) (project : pydict)
    (token name : string) (args : gmap string string) :
  b64decode X token = Some name ->
  truthy_opt (args !! "cpcontents") = false ->
  json_loads X "" = None ->
  let o := execute (CheckplotHandler_post X cplistfile false token args)
                   (begin_request fs project) in
  sent (final o) =
    Some {| rsp_status := 400;
            rsp_body := [envelope "error"
                           "did not receive a checkplot update payload"
                           false PNone] |} /\
  storage (final o) = fs /\
  trace (final o) = [] /\
  fault o = Some (RuntimeError "Cannot write() after finish()").
Proof.
  intros Hdec Hnone Hjson.
  run_handler. rewrite Hdec. unfold get_argument.
  destruct (args !! "cpcontents") as [text|]; simpl in *.
  - destruct text; [|discriminate]. rewrite orb_true_r. simpl.
    rewrite Hjson. simpl. repeat split.
  - rewrite orb_true_r. simpl. repeat split.
Qed.

(** X10: an update whose identifier does not decode is never answered by
    the handler. The [except] clause formats [self.cpfile] for its log line,
    the attribute was never set, and the [AttributeError] leaves the
    handler; storage is untouched and, unless the read-only guard had
    already answered, nothing has been sent. *)
Theorem update_undecodable_identifier
    (readonly : bool) (fs : gmap string file) (project : pydict)
    (token : string) (args : gmap string string) :
  b64decode X token = None ->
  let o := execute (CheckplotHandler_post X cplistfile readonly token args)
                   (begin_request fs project) in
  fault o = Some (AttributeError "cpfile") /\
  sent (final o) =
    (if readonly
     then Some {| rsp_status := 400;
                  rsp_body := [envelope "error" readonly_message true
                                        PNone] |}
     else None) /\
  storage (final o) = fs /\
  trace (final o) = [].
Proof.
  intros Hdec. run_handler. rewrite Hdec.
  destruct readonly; simpl; repeat split.
Qed.

(** X11: when the merge fails to serialise the merged record, the update is
    answered with status 500 and the envelope ["checkplot update failed
    because of a backend error"]: one task went to the pool, no render
    follows even if one was asked for, and every file is as it was. *)
Theorem update_backend_failure
    (fs : gmap string file) (project : pydict)
    (token name text : string) (args : gmap string string)
    (payload current : pydict) (varinfo objectinfo comments : pyval) :
  let cpfpath := cpfpath_of X cplistfile name in
  let fields := merge_fields varinfo objectinfo comments in
  b64decode X token = Some name ->
  name <> "" ->
  args !! "cpcontents" = Some text ->
  text <> "" ->
  json_loads X text = Some (PDict payload) ->
  Dict.get (KStr "varinfo") payload = Some varinfo ->
  Dict.get (KStr "objectinfo") payload = Some objectinfo ->
  Dict.get (KStr "comments") payload = Some comments ->
  record_at fs cpfpath = Some current ->
  encode_ok X (Dict.update current fields) = false ->
  let o := execute (CheckplotHandler_post X cplistfile false token args)
                   (begin_request fs project) in
  sent (final o) =
    Some {| rsp_status := 500;
            rsp_body := [envelope "error"
                           "checkplot update failed because of a backend error"
                           false PNone] |} /\
  storage (final o) = fs /\
  submissions (trace (final o)) = [TUpdate cpfpath fields] /\
  fault o = None.
Proof.
  intros cpfpath fields Hdec Hname Harg Htext Hparse Hv Ho Hc Hrec Henc.
  apply record_at_Some in Hrec.
  run_handler. rewrite Hdec. unfold get_argument. rewrite Harg. simpl.
  rewrite (truthy_str_true _ Hname), (truthy_str_true _ Htext). simpl.
  rewrite Hparse. simpl. rewrite Hv, Ho, Hc. simpl.
  fold cpfpath. rewrite Hrec. simpl.
  unfold checkplot_pickle_update. rewrite Hrec.
  fold (merge_fields varinfo objectinfo comments). fold fields.
  rewrite Henc. simpl. repeat split.
Qed.

(** X12: an accepted update hands the pool one task, the merge, and a
    second one, the render, exactly when [savetopng] was given; the render
    is submitted after the merge, for the record path and the image path
    derived from it, whatever the render then does. *)
Theorem update_pool_tasks
    (fs : gmap string file) (project : pydict)
    (token name text : string) (args : gmap string string)
    (payload current : pydict) (varinfo objectinfo comments : pyval) :
  let cpfpath := cpfpath_of X cplistfile name in
  let fields := merge_fields varinfo objectinfo comments in
  b64decode X token = Some name ->
  name <> "" ->
  args !! "cpcontents" = Some text ->
  text <> "" ->
  json_loads X text = Some (PDict payload) ->
  Dict.get (KStr "varinfo") payload = Some varinfo ->
  Dict.get (KStr "objectinfo") payload = Some objectinfo ->
  Dict.get (KStr "comments") payload = Some comments ->
  record_at fs cpfpath = Some current ->
  encode_ok X (Dict.update current fields) = true ->
  let o := execute (CheckplotHandler_post X cplistfile false token args)
                   (begin_request fs project) in
  submissions (trace (final o)) =
    TUpdate cpfpath fields ::
    (if truthy_opt (args !! "savetopng")
     then [TPng cpfpath (cpfpng_of X cpfpath)] else []).
Proof.
  intros cpfpath fields Hdec Hname Harg Htext Hparse Hv Ho Hc Hrec Henc.
  apply record_at_Some in Hrec.
  assert (Htruthy : truthy_str cpfpath = true)
    by (apply os_path_join_truthy; exact Hname).
  run_handler. rewrite Hdec. unfold get_argument. rewrite Harg. simpl.
  rewrite (truthy_str_true _ Hname), (truthy_str_true _ Htext). simpl.
  rewrite Hparse. simpl. rewrite Hv, Ho, Hc. simpl.
  fold cpfpath. rewrite Hrec. simpl.
  unfold checkplot_pickle_update. rewrite Hrec.
  fold (merge_fields varinfo objectinfo comments). fold fields.
  rewrite Henc. simpl. rewrite Htruthy.
  destruct (truthy_opt (args !! "savetopng")); simpl; [|reflexivity].
  unfold checkplot_pickle_to_png. rewrite lookup_insert_eq.
  destruct (render X _); simpl; repeat split_match; reflexivity.
Qed.

End MoreUpdates.

Lemma replace_absent (old new s : string) :
  is_substring old s = false -> str_replace old new s = s.
Proof.
  unfold str_replace. induction s as [|c s IH]; intros Hno.
  - reflexivity.
  - cbn [is_substring] in Hno. apply orb_false_iff in Hno as [Hp Hs].
    cbn [replace_from]. rewrite Hp. f_equal. now apply IH.
Qed.

Section RenderOverRecord.

Variable X : externals.
Variable cplistfile : string.

(** X13: the image path is the record path with [.pkl] replaced by [.png].
    For an identifier whose path contains no [.pkl] the two paths are the
    same, and a render that succeeds after the merge writes the image over
    the record just merged: the record is gone from disk while the envelope
    reports success with that path. *)
Theorem render_overwrites_record
    (fs : gmap string file) (project : pydict)
    (token name text flag bytes : string) (args : gmap string string)
    (payload current : pydict) (varinfo objectinfo comments : pyval) :
  let cpfpath := cpfpath_of X cplistfile name in
  let merged :=
    Dict.update current (merge_fields varinfo objectinfo comments) in
  b64decode X token = Some name ->
  name <> "" ->
  args !! "cpcontents" = Some text ->
  text <> "" ->
  json_loads X text = Some (PDict payload) ->
  Dict.get (KStr "varinfo") payload = Some varinfo ->
  Dict.get (KStr "objectinfo") payload = Some objectinfo ->
  Dict.get (KStr "comments") payload = Some comments ->
  record_at fs cpfpath = Some current ->
  encode_ok X merged = true ->
  args !! "savetopng" = Some flag ->
  flag <> "" ->
  is_substring ".pkl" cpfpath = false ->
  os_path_abspath X cpfpath = cpfpath ->
  render X merged = RenderBlob bytes ->
  let o := execute (CheckplotHandler_post X cplistfile false token args)
                   (begin_request fs project) in
  cpfpng_of X cpfpath = cpfpath /\
  storage (final o) !! cpfpath = Some (FRaw bytes) /\
  record_at (storage (final o)) cpfpath = None /\
  sent (final o) =
    Some {| rsp_status := 200;
            rsp_body := [success_envelope X false cpfpath (PDict payload)
                           (PStr cpfpath)] |}.
Proof.
  intros cpfpath merged Hdec Hname Harg Htext Hparse Hv Ho Hc Hrec Henc
    Hsave Hflag Hnopkl Habs Hrender.
  assert (Hpng : cpfpng_of X cpfpath = cpfpath).
  { unfold cpfpng_of. now rewrite (replace_absent _ _ _ Hnopkl). }
  split; [exact Hpng|].
  apply record_at_Some in Hrec.
  assert (Htruthy : truthy_str cpfpath = true)
    by (apply os_path_join_truthy; exact Hname).
  run_handler. rewrite Hdec. unfold get_argument. rewrite Harg, Hsave. simpl.
  rewrite (truthy_str_true _ Hname), (truthy_str_true _ Htext),
    (truthy_str_true _ Hflag). simpl.
  rewrite Hparse. simpl. rewrite Hv, Ho, Hc. simpl.
  fold cpfpath. rewrite Hrec. simpl.
  unfold checkplot_pickle_update. rewrite Hrec.
  fold (merge_fields varinfo objectinfo comments). fold merged.
  rewrite Henc. simpl. rewrite Htruthy. simpl. rewrite Hpng.
  unfold checkplot_pickle_to_png. rewrite lookup_insert_eq, Hrender. simpl.
  unfold record_at. rewrite !lookup_insert_eq. simpl.
  repeat split.
Qed.

End RenderOverRecord.

(** ** Writing and reading the manifest *)

Lemma dict_set_set (k : pykey) (v1 v2 : pyval) (d : pydict) :
  Dict.set k v2 (Dict.set k v1 d) = Dict.set k v2 d.
Proof.
  induction d as [|[k' v'] d IH]; simpl.
  - destruct (decide (k = k)); [reflexivity|contradiction].
  - destruct (decide (k = k')) as [->|Hne]; simpl.
    + destruct (decide (k' = k')); [reflexivity|contradiction].
    + destruct (decide (k = k')); [contradiction|]. now rewrite IH.
Qed.

Lemma dict_has_get (k : pykey) (d : pydict) (v : pyval) :
  Dict.get k d = Some v -> Dict.has k d = true.
Proof. unfold Dict.has. now intros ->. Qed.

Section Manifest.

Variable X : externals.
Variable cplistfile : string.

(** What an accepted manifest write leaves behind. *)
Lemma manifest_post_outcome
    (fs : gmap string file) (project reviewed : pydict)
    (objectid text : string) (changes : pyval) (args : gmap string string) :
  let key := xhtml_escape X objectid in
  let project' := with_review project reviewed key changes in
  args !! "objectid" = Some objectid ->
  objectid <> "" ->
  args !! "changes" = Some text ->
  text <> "" ->
  json_loads X text = Some changes ->
  reviewed_of project = Some reviewed ->
  execute (CheckplotListHandler_post X cplistfile false args)
          (begin_request fs project)
  = {| final :=
         {| storage := <[cplistfile := FJson (PDict project')]> fs;
            currentproject := project';
            status_code := 200;
            write_buffer := [review_envelope false key changes];
            sent := Some {| rsp_status := 200;
                            rsp_body := [review_envelope false key changes] |};
            self_cpfile := None;
            trace := [EvOpenW cplistfile] |};
       fault := None |}.
Proof.
  intros key project' Hoid Hne Hch Htext Hparse Hrev.
  unfold project', with_review, reviewed_of, review_envelope in *.
  run_handler. unfold get_argument. rewrite Hoid, Hch. simpl.
  rewrite (truthy_str_true _ Hne), (truthy_str_true _ Htext). simpl.
  rewrite Hparse. simpl. fold key. unfold Dict.has.
  destruct (Dict.get (KStr "reviewed") project) as [[]|] eqn:Hget;
    try discriminate; injection Hrev as <-; simpl.
  - rewrite Hget. simpl. reflexivity.
  - rewrite dict_get_set_eq. simpl. rewrite dict_set_set. reflexivity.
Qed.

(** X14: an accepted manifest write (the server not read-only, object and
    changes given, the changes JSON) records the review under the escaped
    object identifier, keeps every other review and every other key of the
    project, and rewrites the manifest file in full with the project as it
    now stands in memory, on the handler's own thread: nothing goes to the
    pool. The answer is the success envelope naming object and changes. *)
Theorem manifest_write_persists
    (fs : gmap string file) (project reviewed : pydict)
    (objectid text : string) (changes : pyval) (args : gmap string string) :
  let key := xhtml_escape X objectid in
  args !! "objectid" = Some objectid ->
  objectid <> "" ->
  args !! "changes" = Some text ->
  text <> "" ->
  json_loads X text = Some changes ->
  reviewed_of project = Some reviewed ->
  let o := execute (CheckplotListHandler_post X cplistfile false args)
                   (begin_request fs project) in
  (exists reviewed',
      Dict.get (KStr "reviewed") (currentproject (final o))
        = Some (PDict reviewed') /\
      Dict.get (KStr key) reviewed' = Some changes /\
      forall other, other <> KStr key ->
                    Dict.get other reviewed' = Dict.get other reviewed) /\
  (forall k, k <> KStr "reviewed" ->
             Dict.get k (currentproject (final o)) = Dict.get k project) /\
  storage (final o) !! cplistfile
    = Some (FJson (PDict (currentproject (final o)))) /\
  (forall p, p <> cplistfile -> storage (final o) !! p = fs !! p) /\
  trace (final o) = [EvOpenW cplistfile] /\
  sent (final o) =
    Some {| rsp_status := 200;
            rsp_body := [review_envelope false key changes] |} /\
  fault o = None.
Proof.
  intros key Hoid Hne Hch Htext Hparse Hrev o. unfold o.
  rewrite (manifest_post_outcome fs project reviewed objectid text changes
             args Hoid Hne Hch Htext Hparse Hrev).
  simpl. fold key. unfold with_review.
  split; [|split; [|split; [|split]]].
  - eexists. split; [apply dict_get_set_eq|].
    split; [apply dict_get_set_eq|].
    intros other Hother. apply dict_get_set_ne. congruence.
  - intros k Hk. apply dict_get_set_ne. congruence.
  - apply lookup_insert_eq.
  - intros p Hp. apply lookup_insert_ne. congruence.
  - repeat split.
Qed.

(** X15: write, then read. After an accepted manifest write, the next
    manifest read serves the project that is on disk, and in it the review
    just written is found under the object's identifier; the read changes
    nothing any more. *)
Theorem manifest_write_then_read
    (fs : gmap string file) (project reviewed : pydict)
    (objectid text : string) (changes : pyval) (args : gmap string string) :
  let key := xhtml_escape X objectid in
  args !! "objectid" = Some objectid ->
  objectid <> "" ->
  args !! "changes" = Some text ->
  text <> "" ->
  json_loads X text = Some changes ->
  reviewed_of project = Some reviewed ->
  let o := execute (CheckplotListHandler_post X cplistfile false args)
                   (begin_request fs project) in
  let g := execute CheckplotListHandler_get (next_request o) in
  exists served reviewed',
    sent (final g) = Some {| rsp_status := 200;
                             rsp_body := [PDict served] |} /\
    storage (final g) !! cplistfile = Some (FJson (PDict served)) /\
    Dict.get (KStr "reviewed") served = Some (PDict reviewed') /\
    Dict.get (KStr key) reviewed' = Some changes /\
    currentproject (final g) = currentproject (final o).
Proof.
  intros key Hoid Hne Hch Htext Hparse Hrev o g. unfold g, o.
  rewrite (manifest_post_outcome fs project reviewed objectid text changes
             args Hoid Hne Hch Htext Hparse Hrev).
  unfold next_request. simpl. fold key.
  unfold execute, CheckplotListHandler_get, bind, when, get_currentproject,
    begin_request, modify, write, finished; simpl.
  unfold with_review. rewrite dict_has_set. simpl.
  eexists _, _. split; [reflexivity|].
  split; [apply lookup_insert_eq|].
  split; [apply dict_get_set_eq|].
  split; [apply dict_get_set_eq|reflexivity].
Qed.

(** X16: the last write wins. Two accepted manifest writes for the same
    object, one after the other, leave the shared project and the manifest
    file exactly as the second write alone would have. *)
Theorem manifest_rewrite_last_wins
    (fs : gmap string file) (project reviewed : pydict)
    (objectid text1 text2 : string) (changes1 changes2 : pyval)
    (args1 args2 : gmap string string) :
  args1 !! "objectid" = Some objectid ->
  args2 !! "objectid" = Some objectid ->
  objectid <> "" ->
  args1 !! "changes" = Some text1 ->
  args2 !! "changes" = Some text2 ->
  text1 <> "" ->
  text2 <> "" ->
  json_loads X text1 = Some changes1 ->
  json_loads X text2 = Some changes2 ->
  reviewed_of project = Some reviewed ->
  let first := execute (CheckplotListHandler_post X cplistfile false args1)
                       (begin_request fs project) in
  let second := execute (CheckplotListHandler_post X cplistfile false args2)
                        (next_request first) in
  let alone := execute (CheckplotListHandler_post X cplistfile false args2)
                       (begin_request fs project) in
  currentproject (final second) = currentproject (final alone) /\
  storage (final second) = storage (final alone) /\
  sent (final second) = sent (final alone).
Proof.
  intros Hoid1 Hoid2 Hne Hch1 Hch2 Ht1 Ht2 Hp1 Hp2 Hrev first second alone.
  unfold second, alone, first, next_request.
  rewrite (manifest_post_outcome fs project reviewed objectid text1 changes1
             args1 Hoid1 Hne Hch1 Ht1 Hp1 Hrev).
  simpl.
  rewrite (manifest_post_outcome _ _
             (Dict.set (KStr (xhtml_escape X objectid)) changes1 reviewed)
             objectid text2 changes2 args2 Hoid2 Hne Hch2 Ht2 Hp2).
  - rewrite (manifest_post_outcome fs project reviewed objectid text2 changes2
               args2 Hoid2 Hne Hch2 Ht2 Hp2 Hrev).
    simpl. unfold with_review. rewrite !dict_set_set.
    split; [reflexivity|]. split; [|reflexivity].
    apply insert_insert_eq.
  - unfold reviewed_of, with_review. now rewrite dict_get_set_eq.
Qed.

(** X17: a manifest write without its [objectid] or without its [changes]
    is answered with the envelope ["could not parse changes to the
    checkplot filelist from the frontend"], still with status 200, and
    changes neither the shared project nor any file. The handler does not
    stop at the answer: the conversion of the absent argument raises an
    exception that leaves the handler. Without [objectid] it is what
    [xhtml_escape(None)] raises in the installed tornado; with [objectid]
    but without [changes] it is the [TypeError] of [json.loads(None)]. *)
Theorem manifest_write_missing_argument
    (fs : gmap string file) (project : pydict) (args : gmap string string) :
  args !! "objectid" = None \/ args !! "changes" = None ->
  let o := execute (CheckplotListHandler_post X cplistfile false args)
                   (begin_request fs project) in
  sent (final o) =
    Some {| rsp_status := 200;
            rsp_body :=
              [envelope "error"
                 ("could not parse changes to the checkplot filelist " +:+
                  "from the frontend") false PNone] |} /\
  currentproject (final o) = project /\
  storage (final o) = fs /\
  trace (final o) = [] /\
  fault o = Some (match args !! "objectid" with
                  | None => xhtml_escape_none X
                  | Some _ => TypeError
                  end).
Proof.
  intros Hmiss. run_handler. unfold get_argument.
  destruct (args !! "objectid") as [oid|]; simpl.
  - destruct Hmiss as [Hmiss|Hmiss]; [discriminate|]. rewrite Hmiss. simpl.
    rewrite orb_true_r. simpl. repeat split.
  - repeat split.
Qed.

(** X18: reading the manifest twice. The second read finds the [reviewed]
    key in place: it changes nothing and serves what the first one served. *)
Theorem manifest_read_twice (fs : gmap string file) (project : pydict) :
  let g1 := execute CheckplotListHandler_get (begin_request fs project) in
  let g2 := execute CheckplotListHandler_get (next_request g1) in
  sent (final g2) = sent (final g1) /\
  currentproject (final g2) = currentproject (final g1) /\
  storage (final g2) = fs.
Proof.
  unfold next_request, execute, CheckplotListHandler_get, bind, when,
    get_currentproject, begin_request, modify, write, finished; simpl.
  destruct (Dict.has (KStr "reviewed") project) eqn:Hrev; simpl.
  - rewrite Hrev. simpl. repeat split.
  - rewrite dict_has_set. simpl. repeat split.
Qed.

End Manifest.

(** ** The index page *)

Lemma insert_sorted_perm (x : string) (l : list string) :
  Permutation (insert_sorted x l) (x :: l).
Proof.
  induction l as [|y l IH]; simpl.
  - reflexivity.
  - destruct (String.leb x y); [reflexivity|].
    rewrite IH. apply perm_swap.
Qed.

Lemma sorted_strings_perm (l : list string) :
  Permutation (sorted_strings l) l.
Proof.
  induction l as [|x l IH]; simpl.
  - reflexivity.
  - rewrite insert_sorted_perm. now apply perm_skip.
Qed.

Lemma insert_sorted_hd (x y : string) (l : list string) :
  String.leb y x = true ->
  HdRel (fun a b => String.leb a b = true) y l ->
  HdRel (fun a b => String.leb a b = true) y (insert_sorted x l).
Proof.
  intros Hyx Hl. destruct l as [|z l]; simpl.
  - now constructor.
  - destruct (String.leb x z); constructor; [exact Hyx|].
    now inversion Hl.
Qed.

Lemma insert_sorted_sorted (x : string) (l : list string) :
  Sorted (fun a b => String.leb a b = true) l ->
  Sorted (fun a b => String.leb a b = true) (insert_sorted x l).
Proof.
  induction l as [|y l IH]; simpl; intros Hs.
  - repeat constructor.
  - destruct (String.leb x y) eqn:Hxy.
    + constructor; [exact Hs|]. now constructor.
    + inversion Hs as [|? ? Hs' Hhd]; subst.
      constructor; [now apply IH|].
      apply insert_sorted_hd; [|exact Hhd].
      destruct (String.leb_total x y) as [H|H]; congruence.
Qed.

Lemma sorted_strings_sorted (l : list string) :
  Sorted (fun a b => String.leb a b = true) (sorted_strings l).
Proof.
  induction l as [|x l IH]; simpl.
  - constructor.
  - now apply insert_sorted_sorted.
Qed.

Lemma as_strings_map (ids : list string) :
  as_strings (map PStr ids) = Some ids.
Proof. induction ids as [|x ids IH]; simpl; [|rewrite IH]; reflexivity. Qed.

(** X19: the index page lists every checkplot of the project exactly once,
    in ascending order, together with the base name of each and the indices
    [0 .. n-1], and names the manifest file. The shared project is left as
    it is -- the list in it is not put into order -- and storage is not
    looked at. *)
Theorem index_lists_sorted_checkplots
    (render_string : string -> pydict -> string) (cplistfile : string)
    (fs : gmap string file) (project : pydict) (ids : list string) :
  Dict.get (KStr "checkplots") project = Some (PList (map PStr ids)) ->
  let o := execute (IndexHandler_get render_string cplistfile)
                   (begin_request fs project) in
  exists listed : list string,
    sent (final o) =
      Some {| rsp_status := 200;
              rsp_body :=
                [PStr (render_string "cpindex.html"
                   [(KStr "project_checkplots", PList (map PStr listed));
                    (KStr "project_checkplotbasenames",
                       PList (map (fun x => PStr (os_path_basename x))
                                  listed));
                    (KStr "project_checkplotindices",
                       PList (map (fun i => PInt (Z.of_nat i))
                                  (seq 0 (length ids))));
                    (KStr "project_checkplotfile", PStr cplistfile)])] |} /\
    Permutation listed ids /\
    Sorted (fun a b => String.leb a b = true) listed /\
    currentproject (final o) = project /\
    storage (final o) = fs /\
    trace (final o) = [] /\
    fault o = None.
Proof.
  intros Hcps. exists (sorted_strings ids).
  unfold execute, IndexHandler_get, self_render, index_kwargs, py_sorted,
    bind, lift, get_currentproject, begin_request, write, finish, finished.
  simpl. rewrite Hcps. simpl. rewrite as_strings_map. simpl.
  rewrite (Permutation_length (sorted_strings_perm ids)).
  repeat split; auto using sorted_strings_perm, sorted_strings_sorted.
Qed.

Lemma chars_append (a b : string) :
  list_ascii_of_string (a +:+ b)
  = (list_ascii_of_string a ++ list_ascii_of_string b)%list.
Proof. induction a as [|c a IH]; simpl; [|rewrite IH]; reflexivity. Qed.

Lemma take_while_stops {A} (f : A -> bool) (l l' : list A) (y : A) :
  f y = false -> take_while f (l ++ y :: l')%list = take_while f l.
Proof.
  intros Hy. induction l as [|x l IH]; simpl.
  - now rewrite Hy.
  - destruct (f x); [now rewrite IH|reflexivity].
Qed.

Lemma basename_after_slash (a b : string) :
  ends_with_slash a = true ->
  os_path_basename (a +:+ b) = os_path_basename b.
Proof.
  unfold ends_with_slash, os_path_basename. intros Hend.
  rewrite chars_append, rev_app_distr.
  destruct (rev (list_ascii_of_string a)) as [|c l]; [discriminate|].
  now rewrite take_while_stops by now rewrite Hend.
Qed.

(** X20: the base name the index page shows for a manifest entry is the
    base name of the record file the load and update handlers open for it:
    joining the entry to the project directory does not change its base
    name, whatever the directory and the entry. *)
Theorem basename_of_record_path (X : externals) (cplistfile name : string) :
  os_path_basename (cpfpath_of X cplistfile name) = os_path_basename name.
Proof.
  unfold cpfpath_of, os_path_join.
  set (dir := os_path_abspath X (os_path_dirname cplistfile)).
  destruct (String.prefix "/" name); [reflexivity|].
  destruct (truthy_str dir) eqn:Hdir; simpl.
  - destruct (ends_with_slash dir) eqn:Hend.
    + now apply basename_after_slash.
    + unfold os_path_basename. rewrite chars_append, rev_app_distr. simpl.
      rewrite <- app_assoc. simpl.
      now rewrite take_while_stops by reflexivity.
  - destruct dir; [reflexivity|discriminate].
Qed.

(** ** Malformed bundles and missing files *)

Lemma periodogram_result_short (X : externals) (cpdict b : pydict)
    (key : string) :
  Dict.get (KStr key) cpdict = Some (PDict b) ->
  Dict.get (KInt 2) b = None ->
  forall s, exists e, periodogram_result X cpdict key s = (s, Raise e).
Proof.
  intros Hb Hshort s.
  unfold periodogram_result, phasedlc_plot, getk, geti, bind, lift. simpl.
  rewrite Hb. simpl.
  destruct (Dict.get (KStr "periodogram") b) as [pg|]; simpl; [|eauto].
  destruct (decode_if_bytes pg); simpl; [|eauto].
  destruct (Dict.get (KInt 0) b) as [e0|]; simpl; [|eauto].
  destruct (py_getitem e0 (KStr "plot")) as [p0|]; simpl; [|eauto].
  destruct (decode_if_bytes p0); simpl; [|eauto].
  destruct (Dict.get (KInt 1) b) as [e1|]; simpl; [|eauto].
  destruct (py_getitem e1 (KStr "plot")) as [p1|]; simpl; [|eauto].
  destruct (decode_if_bytes p1); simpl; [|eauto].
  rewrite Hshort. simpl. eauto.
Qed.

Lemma add_periodograms_short (X : externals) (cpdict b : pydict)
    (key : string) (keys : list string) :
  key ∈ keys ->
  Dict.get (KStr key) cpdict = Some (PDict b) ->
  Dict.get (KInt 2) b = None ->
  forall res s,
    exists e, add_periodograms X cpdict keys res s = (s, Raise e).
Proof.
  intros Hin Hb Hshort.
  induction keys as [|key0 keys IH]; intros res s; [inversion Hin|].
  cbn [add_periodograms].
  destruct (decide (key0 = key)) as [->|Hne].
  - rewrite (dict_has_get _ _ _ Hb). unfold bind.
    destruct (periodogram_result_short X cpdict b key Hb Hshort s)
      as [e He].
    rewrite He. eauto.
  - assert (Hin' : key ∈ keys).
    { apply elem_of_cons in Hin as [->|Hin]; [contradiction|exact Hin]. }
    destruct (Dict.has (KStr key0) cpdict); [|now apply IH].
    unfold bind.
    pose proof (periodogram_result_state X cpdict key0 s) as Hstate.
    destruct (periodogram_result X cpdict key0 s) as [s1 [r|e]];
      simpl in Hstate; subst s1; [now apply IH|eauto].
Qed.

Lemma load_result_short (X : externals) (cpdict b : pydict)
    (key : string) :
  key ∈ pkl_keys ->
  Dict.get (KStr key) cpdict = Some (PDict b) ->
  Dict.get (KInt 2) b = None ->
  forall s, exists e, load_result X cpdict s = (s, Raise e).
Proof.
  intros Hin Hb Hshort s. unfold load_result, getk, bind, lift.
  repeat match goal with
         | |- context [py_getitem ?v ?k] =>
             destruct (py_getitem v k); [|now eauto]
         | |- context [decode_if_bytes ?v] =>
             destruct (decode_if_bytes v); [|now eauto]
         | |- context [py_size ?v] => destruct (py_size v); [|now eauto]
         end.
  now apply (add_periodograms_short X cpdict b key).
Qed.

Section Malformed.

Variable X : externals.
Variable cplistfile : string.

(** X21: a record in which the bundle of one periodogram method has no
    third phased light curve cannot be loaded: the load raises while it
    assembles its answer, the exception leaves the handler and nothing has
    been written, however complete the rest of the record is. *)
Theorem load_short_bundle_faults
    (readonly : bool) (fs : gmap string file) (project cpdict b : pydict)
    (token raw key : string) (ids : list pyval) :
  let name := xhtml_escape X raw in
  let cpfpath := cpfpath_of X cplistfile name in
  token <> "" ->
  b64decode X token = Some raw ->
  Dict.get (KStr "checkplots") project = Some (PList ids) ->
  PStr name ∈ ids ->
  fs !! cpfpath = Some (FPickle cpdict) ->
  key ∈ pkl_keys ->
  Dict.get (KStr key) cpdict = Some (PDict b) ->
  Dict.get (KInt 2) b = None ->
  let o := execute (CheckplotHandler_get X cplistfile readonly token)
                   (begin_request fs project) in
  fault o <> None /\
  sent (final o) = None /\
  write_buffer (final o) = [].
Proof.
  intros name cpfpath Htok Hdec Hcps Hin Hfile Hkey Hb Hshort.
  apply existsb_is_pystr in Hin.
  run_handler. rewrite (truthy_str_true _ Htok), Hdec. simpl.
  rewrite Hcps. simpl. fold name. rewrite Hin. simpl.
  fold cpfpath. unfold _read_checkplot_picklefile.
  repeat (rewrite Hfile; simpl).
  match goal with
  | |- context [load_result X cpdict ?s] =>
      destruct (load_result_short X cpdict b key Hkey Hb Hshort s)
        as [e He];
      rewrite He
  end.
  simpl. repeat split. discriminate.
Qed.

(** X22: an update of a record whose file is not on disk is answered with
    the envelope ["couldn't find checkplot ..."], which here carries all
    four fields, still with status 200. The handler does not stop at the
    answer: the merge is handed to the pool all the same, it finds nothing
    to merge, no file is created, and the attempt to answer a second time
    leaves the handler as a [RuntimeError]. *)
Theorem update_missing_file
    (fs : gmap string file) (project : pydict)
    (token name text : string) (args : gmap string string)
    (payload : pydict) (varinfo objectinfo comments : pyval) :
  let cpfpath := cpfpath_of X cplistfile name in
  b64decode X token = Some name ->
  name <> "" ->
  args !! "cpcontents" = Some text ->
  text <> "" ->
  json_loads X text = Some (PDict payload) ->
  Dict.get (KStr "varinfo") payload = Some varinfo ->
  Dict.get (KStr "objectinfo") payload = Some objectinfo ->
  Dict.get (KStr "comments") payload = Some comments ->
  fs !! cpfpath = None ->
  let o := execute (CheckplotHandler_post X cplistfile false token args)
                   (begin_request fs project) in
  let env := envelope "error" ("couldn't find checkplot " +:+ cpfpath) false
                      PNone in
  sent (final o) = Some {| rsp_status := 200; rsp_body := [env] |} /\
  has_all_fields env = true /\
  storage (final o) = fs /\
  submissions (trace (final o))
    = [TUpdate cpfpath (merge_fields varinfo objectinfo comments)] /\
  fault o = Some (RuntimeError "Cannot write() after finish()").
Proof.
  intros cpfpath Hdec Hname Harg Htext Hparse Hv Ho Hc Hnone.
  run_handler. rewrite Hdec. unfold get_argument. rewrite Harg. simpl.
  rewrite (truthy_str_true _ Hname), (truthy_str_true _ Htext). simpl.
  rewrite Hparse. simpl. rewrite Hv, Ho, Hc. simpl.
  fold cpfpath. rewrite Hnone. simpl.
  unfold checkplot_pickle_update. rewrite Hnone. simpl.
  repeat split.
Qed.

End Malformed.

(** ** More scenarios, run *)

Module MoreRuns.

Import Scenario.
Import Cases.

(** Closes a hypothesis about the concrete scenario by evaluation. *)
Ltac by_run :=
  first [ reflexivity | discriminate
        | vm_compute; reflexivity | vm_compute; discriminate ].

Lemma obj2_listed : PStr (xhtml_escape X0 "obj2.pkl") ∈ Runs.ids.
Proof. apply existsb_is_pystr. reflexivity. Qed.

Lemma load_answers_record_witness :
  let result :=
    PDict [(KStr "objectid", PStr "obj2");
           (KStr "objectinfo", PDict [(KStr "ndet", PInt 3)]);
           (KStr "objectcomments",
              default PNone (Dict.get (KStr "comments") record2));
           (KStr "varinfo", PDict [(KStr "objectisvar", PNone)]);
           (KStr "finderchart", PStr "ZmluZGVy");
           (KStr "magseries", PStr "bWFncw==");
           (KStr "magseries_ndet",
              PInt (Z.of_nat (length [PInt 1; PInt 2; PInt 3])));
           (KStr "cpstatus", PStr "ok")] in
  let o := execute (CheckplotHandler_get X0 cplistfile false obj2_token)
                   (begin_request disk2 project) in
  (if json_encodable result
   then sent (final o) =
          Some {| rsp_status := 200;
                  rsp_body := [envelope "ok"
                                 ("found checkplot " +:+
                                  xhtml_escape X0 "obj2.pkl")
                                 false result] |} /\
        fault o = None
   else sent (final o) = None /\
        write_buffer (final o) = [] /\
        fault o = Some TypeError) /\
  trace (final o) =
    [EvExists (cpfpath_of X0 cplistfile (xhtml_escape X0 "obj2.pkl"));
     EvSubmit (TRead (cpfpath_of X0 cplistfile
                        (xhtml_escape X0 "obj2.pkl")))].
Proof.
  apply (load_answers_record X0 cplistfile false disk2 project record2
           obj2_token "obj2.pkl" Runs.ids [PInt 1; PInt 2; PInt 3]
           (PStr "obj2") (PDict [(KStr "ndet", PInt 3)])
           (PDict [(KStr "objectisvar", PNone)]) (PBytes "ZmluZGVy")
           (PDict [(KStr "plot", PBytes "bWFncw==");
                   (KStr "times", PArray [PInt 1; PInt 2; PInt 3])])
           (PBytes "bWFncw==") (PStr "ok")
           (PStr "ZmluZGVy") (PStr "bWFncw=="));
    first [by_run | apply obj2_listed].
Defined.

(** The run above, evaluated: the record of [obj2.pkl] is answered with its
    images as text, no comments and three detections. *)
Lemma load_of_obj2_answered :
  let o := execute (CheckplotHandler_get X0 cplistfile false obj2_token)
                   (begin_request disk2 project) in
  sent (final o) =
    Some {| rsp_status := 200;
            rsp_body :=
              [envelope "ok" ("found checkplot " +:+ "obj2.pkl") false
                 (PDict
                    [(KStr "objectid", PStr "obj2");
                     (KStr "objectinfo", PDict [(KStr "ndet", PInt 3)]);
                     (KStr "objectcomments", PNone);
                     (KStr "varinfo", PDict [(KStr "objectisvar", PNone)]);
                     (KStr "finderchart", PStr "ZmluZGVy");
                     (KStr "magseries", PStr "bWFncw==");
                     (KStr "magseries_ndet", PInt 3);
                     (KStr "cpstatus", PStr "ok")])] |} /\
  fault o = None.
Proof. split; vm_compute; reflexivity. Qed.

(** The same record with a numpy integer in its [objectinfo], as the
    pipeline leaves it: the answer cannot be encoded, and the load ends in
    a [TypeError] with nothing sent. *)
Lemma load_of_numpy_field_faults :
  let o := execute (CheckplotHandler_get X0 cplistfile false obj2_token)
                   (begin_request disk2_numpy project) in
  sent (final o) = None /\
  write_buffer (final o) = [] /\
  fault o = Some TypeError.
Proof. repeat split; vm_compute; reflexivity. Qed.

(** A finder chart whose bytes are not UTF-8 cannot be sent as text: the
    load ends in a [UnicodeDecodeError]. *)
Lemma load_of_undecodable_image_faults :
  let o := execute (CheckplotHandler_get X0 cplistfile false obj2_token)
                   (begin_request disk2_bad_image project) in
  sent (final o) = None /\
  fault o = Some UnicodeDecodeError.
Proof. repeat split; vm_compute; reflexivity. Qed.

(** [float] on what a record may hold for a period: numeric text is
    parsed, a large integer is rounded to the nearest double, a numpy
    integer converts, and text that is no number raises. *)
Lemma float_of_record_values :
  py_float X0 (PStr "3.5") = Ok (PFloat (Qmake 7 2)) /\
  py_float X0 (PBytes " -1e3 ") = Ok (PFloat (inject_Z (-1000))) /\
  py_float X0 (PStr "inf") = Ok (PInf false) /\
  py_float X0 (PInt 9007199254740993) =
    Ok (PFloat (inject_Z 9007199254740992)) /\
  py_float X0 (PNpInt 3) = Ok (PFloat (inject_Z 3)) /\
  py_float X0 (PStr "three") = Raise ValueError /\
  py_float X0 (PInt (2 ^ 1024)) = Raise OverflowError /\
  py_float X0 PNone = Raise TypeError.
Proof. repeat split; vm_compute; reflexivity. Qed.

Lemma load_incomplete_record_faults_witness :
  let o := execute (CheckplotHandler_get X0 cplistfile false obj2_token)
                   (begin_request disk2_no_status project) in
  fault o <> None /\
  sent (final o) = None /\
  write_buffer (final o) = [].
Proof.
  apply (load_incomplete_record_faults X0 cplistfile false disk2_no_status
           project record2_no_status obj2_token "obj2.pkl" Runs.ids);
    first [by_run | apply obj2_listed].
Defined.

Lemma load_result_has_record_methods_witness :
  let o := execute (CheckplotHandler_get X0 cplistfile false obj1_token)
                   (begin_request disk project) in
  exists res : pydict,
    sent (final o) =
      Some {| rsp_status := 200;
              rsp_body := [envelope "ok"
                             ("found checkplot " +:+
                              xhtml_escape X0 "obj1.pkl")
                             false (PDict res)] |} /\
    forall k, Dict.has k res =
              bool_decide (k ∈ map KStr result_keys) ||
              (bool_decide (k ∈ map KStr pkl_keys) && Dict.has k record1).
Proof.
  apply (load_result_has_record_methods X0 cplistfile false disk project
           record1 obj1_token "obj1.pkl" Runs.ids);
    first [by_run | apply Runs.obj1_listed].
Defined.

Lemma tool_dispatch_unknown_identifier_witness :
  let o := execute (LCToolHandler_get X0 cplistfile false other_token
                      bls_args)
                   (begin_request disk_with_stray project) in
  sent (final o) =
    Some {| rsp_status := 200;
            rsp_body := [envelope "error" "This checkplot doesn't exist."
                                  false PNone] |} /\
  fault o = None /\
  trace (final o) = [].
Proof.
  apply (tool_dispatch_unknown_identifier X0 cplistfile false
           disk_with_stray project other_token "other.pkl" Runs.ids
           bls_args);
    first [by_run | intros H; apply existsb_is_pystr in H; discriminate H].
Defined.

Lemma tool_dispatch_answers_nothing_witness :
  let o := execute (LCToolHandler_get X0 cplistfile false obj1_token
                      bls_args)
                   (begin_request disk project) in
  sent (final o) = Some {| rsp_status := 200; rsp_body := [] |} /\
  fault o = None /\
  trace (final o) = [EvExists obj1_path; EvSubmit (TRead obj1_path)].
Proof.
  apply (tool_dispatch_answers_nothing X0 cplistfile false disk project
           record1 obj1_token "obj1.pkl" Runs.ids bls_args);
    first [by_run | apply Runs.obj1_listed].
Defined.

Lemma update_without_payload_witness :
  let o := execute (CheckplotHandler_post X0 cplistfile false obj1_token
                      no_args)
                   (begin_request disk project) in
  sent (final o) =
    Some {| rsp_status := 400;
            rsp_body := [envelope "error"
                           "did not receive a checkplot update payload"
                           false PNone] |} /\
  storage (final o) = disk /\
  trace (final o) = [] /\
  fault o = Some (RuntimeError "Cannot write() after finish()").
Proof.
  apply (update_without_payload X0 cplistfile disk project obj1_token
           "obj1.pkl" no_args); by_run.
Defined.

Lemma update_undecodable_identifier_witness :
  let o := execute (CheckplotHandler_post X0 cplistfile false bad_token
                      update_args)
                   (begin_request disk project) in
  fault o = Some (AttributeError "cpfile") /\
  sent (final o) = None /\
  storage (final o) = disk /\
  trace (final o) = [].
Proof.
  apply (update_undecodable_identifier X0 cplistfile false disk project
           bad_token update_args).
  reflexivity.
Defined.

Lemma update_backend_failure_witness :
  let fields :=
    merge_fields (PDict [(KStr "objectisvar", PInt 1)])
                 (PDict [(KStr "ndet", PInt 2)])
                 (PList [PStr "looks periodic"]) in
  let o := execute (CheckplotHandler_post lib_no_encode cplistfile false
                      obj1_token update_png_args)
                   (begin_request disk project) in
  sent (final o) =
    Some {| rsp_status := 500;
            rsp_body := [envelope "error"
                           "checkplot update failed because of a backend error"
                           false PNone] |} /\
  storage (final o) = disk /\
  submissions (trace (final o))
    = [TUpdate (cpfpath_of lib_no_encode cplistfile "obj1.pkl") fields] /\
  fault o = None.
Proof.
  intros fields.
  apply (update_backend_failure lib_no_encode cplistfile disk project
           obj1_token "obj1.pkl" payload_text update_png_args
           [(KStr "varinfo", PDict [(KStr "objectisvar", PInt 1)]);
            (KStr "objectinfo", PDict [(KStr "ndet", PInt 2)]);
            (KStr "comments", PList [PStr "looks periodic"]);
            (KStr "status", PStr "hacked")]
           record1);
    by_run.
Defined.

Lemma update_pool_tasks_witness :
  let X := lib renders in
  let cpfpath := cpfpath_of X cplistfile "obj1.pkl" in
  let fields :=
    merge_fields (PDict [(KStr "objectisvar", PInt 1)])
                 (PDict [(KStr "ndet", PInt 2)])
                 (PList [PStr "looks periodic"]) in
  let o := execute (CheckplotHandler_post X cplistfile false obj1_token
                      update_png_args)
                   (begin_request disk project) in
  submissions (trace (final o)) =
    TUpdate cpfpath fields ::
    (if truthy_opt (update_png_args !! "savetopng")
     then [TPng cpfpath (cpfpng_of X cpfpath)] else []).
Proof.
  intros X cpfpath fields.
  apply (update_pool_tasks X cplistfile disk project obj1_token "obj1.pkl"
           payload_text update_png_args
           [(KStr "varinfo", PDict [(KStr "objectisvar", PInt 1)]);
            (KStr "objectinfo", PDict [(KStr "ndet", PInt 2)]);
            (KStr "comments", PList [PStr "looks periodic"]);
            (KStr "status", PStr "hacked")]
           record1);
    by_run.
Defined.

Lemma render_overwrites_record_witness :
  let X := lib renders in
  let cpfpath := cpfpath_of X cplistfile "obj3.pickle" in
  let o := execute (CheckplotHandler_post X cplistfile false obj3_token
                      update_png_args)
                   (begin_request disk3 project) in
  cpfpng_of X cpfpath = cpfpath /\
  storage (final o) !! cpfpath = Some (FRaw "image") /\
  record_at (storage (final o)) cpfpath = None /\
  sent (final o) =
    Some {| rsp_status := 200;
            rsp_body :=
              [success_envelope X false cpfpath
                 (PDict
                    [(KStr "varinfo", PDict [(KStr "objectisvar", PInt 1)]);
                     (KStr "objectinfo", PDict [(KStr "ndet", PInt 2)]);
                     (KStr "comments", PList [PStr "looks periodic"]);
                     (KStr "status", PStr "hacked")])
                 (PStr cpfpath)] |}.
Proof.
  intros X cpfpath.
  apply (render_overwrites_record X cplistfile disk3 project obj3_token
           "obj3.pickle" payload_text "true" "image" update_png_args
           [(KStr "varinfo", PDict [(KStr "objectisvar", PInt 1)]);
            (KStr "objectinfo", PDict [(KStr "ndet", PInt 2)]);
            (KStr "comments", PList [PStr "looks periodic"]);
            (KStr "status", PStr "hacked")]
           record1 (PDict [(KStr "objectisvar", PInt 1)])
           (PDict [(KStr "ndet", PInt 2)]) (PList [PStr "looks periodic"]));
    by_run.
Defined.

Lemma manifest_write_persists_witness :
  let key := xhtml_escape X0 "obj1" in
  let o := execute (CheckplotListHandler_post X0 cplistfile false
                      review_args)
                   (begin_request disk project) in
  (exists reviewed',
      Dict.get (KStr "reviewed") (currentproject (final o))
        = Some (PDict reviewed') /\
      Dict.get (KStr key) reviewed' = Some (PList [PInt 1]) /\
      forall other, other <> KStr key ->
                    Dict.get other reviewed' = Dict.get other []) /\
  (forall k, k <> KStr "reviewed" ->
             Dict.get k (currentproject (final o)) = Dict.get k project) /\
  storage (final o) !! cplistfile
    = Some (FJson (PDict (currentproject (final o)))) /\
  (forall p, p <> cplistfile -> storage (final o) !! p = disk !! p) /\
  trace (final o) = [EvOpenW cplistfile] /\
  sent (final o) =
    Some {| rsp_status := 200;
            rsp_body := [review_envelope false key (PList [PInt 1])] |} /\
  fault o = None.
Proof.
  apply (manifest_write_persists X0 cplistfile disk project [] "obj1" "[1]"
           (PList [PInt 1]) review_args);
    by_run.
Defined.

Lemma manifest_write_then_read_witness :
  let key := xhtml_escape X0 "obj1" in
  let o := execute (CheckplotListHandler_post X0 cplistfile false
                      review_args)
                   (begin_request disk project) in
  let g := execute CheckplotListHandler_get (next_request o) in
  exists served reviewed',
    sent (final g) = Some {| rsp_status := 200;
                             rsp_body := [PDict served] |} /\
    storage (final g) !! cplistfile = Some (FJson (PDict served)) /\
    Dict.get (KStr "reviewed") served = Some (PDict reviewed') /\
    Dict.get (KStr key) reviewed' = Some (PList [PInt 1]) /\
    currentproject (final g) = currentproject (final o).
Proof.
  apply (manifest_write_then_read X0 cplistfile disk project [] "obj1" "[1]"
           (PList [PInt 1]) review_args);
    by_run.
Defined.

Lemma manifest_rewrite_last_wins_witness :
  let first := execute (CheckplotListHandler_post X0 cplistfile false
                          review_args)
                       (begin_request disk project) in
  let second := execute (CheckplotListHandler_post X0 cplistfile false
                           review_args2)
                        (next_request first) in
  let alone := execute (CheckplotListHandler_post X0 cplistfile false
                          review_args2)
                       (begin_request disk project) in
  currentproject (final second) = currentproject (final alone) /\
  storage (final second) = storage (final alone) /\
  sent (final second) = sent (final alone).
Proof.
  apply (manifest_rewrite_last_wins X0 cplistfile disk project [] "obj1"
           "[1]" "[2]" (PList [PInt 1]) (PList [PInt 2])
           review_args review_args2);
    by_run.
Defined.

Lemma manifest_write_missing_argument_witness :
  let o := execute (CheckplotListHandler_post X0 cplistfile false
                      review_args_no_changes)
                   (begin_request disk project) in
  sent (final o) =
    Some {| rsp_status := 200;
            rsp_body :=
              [envelope "error"
                 ("could not parse changes to the checkplot filelist " +:+
                  "from the frontend") false PNone] |} /\
  currentproject (final o) = project /\
  storage (final o) = disk /\
  trace (final o) = [] /\
  fault o = Some TypeError.
Proof.
  apply (manifest_write_missing_argument X0 cplistfile disk project
           review_args_no_changes).
  right. reflexivity.
Defined.

(** A manifest write with no argument at all, on a server with tornado 6.4
    or later: after the answer, [xhtml_escape(None)] ends in an
    [AttributeError]. *)
Lemma manifest_write_without_objectid :
  let o := execute (CheckplotListHandler_post X0 cplistfile false no_args)
                   (begin_request disk project) in
  sent (final o) =
    Some {| rsp_status := 200;
            rsp_body :=
              [envelope "error"
                 ("could not parse changes to the checkplot filelist " +:+
                  "from the frontend") false PNone] |} /\
  storage (final o) = disk /\
  fault o = Some (AttributeError "replace").
Proof. repeat split; vm_compute; reflexivity. Qed.

Lemma index_lists_sorted_checkplots_witness :
  let o := execute (IndexHandler_get plain_page cplistfile)
                   (begin_request disk
                      [(KStr "checkplots",
                        PList (map PStr ["sub/obj2.pkl"; "obj1.pkl"]))]) in
  exists listed : list string,
    sent (final o) =
      Some {| rsp_status := 200;
              rsp_body :=
                [PStr (plain_page "cpindex.html"
                   [(KStr "project_checkplots", PList (map PStr listed));
                    (KStr "project_checkplotbasenames",
                       PList (map (fun x => PStr (os_path_basename x))
                                  listed));
                    (KStr "project_checkplotindices",
                       PList (map (fun i => PInt (Z.of_nat i))
                                  (seq 0 (length
                                     ["sub/obj2.pkl"; "obj1.pkl"]))));
                    (KStr "project_checkplotfile", PStr cplistfile)])] |} /\
    Permutation listed ["sub/obj2.pkl"; "obj1.pkl"] /\
    Sorted (fun a b => String.leb a b = true) listed /\
    currentproject (final o)
      = [(KStr "checkplots", PList (map PStr ["sub/obj2.pkl"; "obj1.pkl"]))] /\
    storage (final o) = disk /\
    trace (final o) = [] /\
    fault o = None.
Proof.
  apply (index_lists_sorted_checkplots plain_page cplistfile disk
           [(KStr "checkplots",
             PList (map PStr ["sub/obj2.pkl"; "obj1.pkl"]))]
           ["sub/obj2.pkl"; "obj1.pkl"]).
  reflexivity.
Defined.

Lemma load_short_bundle_faults_witness :
  let o := execute (CheckplotHandler_get X0 cplistfile false obj2_token)
                   (begin_request disk2_short_bundle project) in
  fault o <> None /\
  sent (final o) = None /\
  write_buffer (final o) = [].
Proof.
  apply (load_short_bundle_faults X0 cplistfile false disk2_short_bundle
           project record2_short_bundle
           [(KStr "periodogram", PBytes "cGdyYW0=");
            (KStr "nbestperiods", PList [PInt 3; PInt 6]);
            (KStr "bestperiod", PInt 3);
            (KInt 0, phased 3); (KInt 1, phased 6)]
           obj2_token "obj2.pkl" "gls" Runs.ids);
    first [by_run | apply obj2_listed | idtac].
  apply list_elem_of_In. simpl. tauto.
Defined.

Lemma update_missing_file_witness :
  let cpfpath := cpfpath_of X0 cplistfile "obj2.pkl" in
  let o := execute (CheckplotHandler_post X0 cplistfile false obj2_token
                      update_args)
                   (begin_request disk project) in
  let env := envelope "error" ("couldn't find checkplot " +:+ cpfpath) false
                      PNone in
  sent (final o) = Some {| rsp_status := 200; rsp_body := [env] |} /\
  has_all_fields env = true /\
  storage (final o) = disk /\
  submissions (trace (final o))
    = [TUpdate cpfpath
         (merge_fields (PDict [(KStr "objectisvar", PInt 1)])
                       (PDict [(KStr "ndet", PInt 2)])
                       (PList [PStr "looks periodic"]))] /\
  fault o = Some (RuntimeError "Cannot write() after finish()").
Proof.
  apply (update_missing_file X0 cplistfile disk project obj2_token
           "obj2.pkl" payload_text update_args
           [(KStr "varinfo", PDict [(KStr "objectisvar", PInt 1)]);
            (KStr "objectinfo", PDict [(KStr "ndet", PInt 2)]);
            (KStr "comments", PList [PStr "looks periodic"]);
            (KStr "status", PStr "hacked")]);
    by_run.
Defined.

End MoreRuns.
